(** * Robokassa payment integration: signatures and order lifecycle

    A shallow embedding of [robokassa_client.py] (canonical signature
    strings, payment URL, callback verification) and of the request
    handlers of [app.py] (the order store and its status transitions),
    followed by the properties of the design document stated against
    that embedding.

    Text is modelled by [string], read as the UTF-8 bytes of a Python
    [str]; [encode("utf-8")] is then the identity on bytes.  Case mapping
    and whitespace are the ASCII ones, so the model speaks about ASCII
    text, which is what the gateway protocol exchanges. *)

From Stdlib Require Import ZArith Ascii String DecimalString DecimalNat List Permutation Sorted Lia.
From stdpp Require Import gmap strings list fin_maps sorting.
Import ListNotations.
Local Open Scope string_scope.

(* ===================================================================== *)
(** ** Python [str] primitives used by the sources *)
(* ===================================================================== *)

Module PyStr.

Definition code (c : ascii) : nat := nat_of_ascii c.

Definition is_lower (c : ascii) : bool :=
  (97 <=? code c)%nat && (code c <=? 122)%nat.

(** [str.upper] on one ASCII character. *)
Definition upper_char (c : ascii) : ascii :=
  if is_lower c then ascii_of_nat (code c - 32) else c.

(** [s.upper()] *)
Fixpoint upper (s : string) : string :=
  match s with
  | EmptyString => EmptyString
  | String c r => String (upper_char c) (upper r)
  end.

(** [str.lower] on one ASCII character. *)
Definition lower_char (c : ascii) : ascii :=
  if (65 <=? code c)%nat && (code c <=? 90)%nat
  then ascii_of_nat (code c + 32) else c.

(** [s.lower()] *)
Fixpoint lower (s : string) : string :=
  match s with
  | EmptyString => EmptyString
  | String c r => String (lower_char c) (lower r)
  end.

(** ASCII members of [str.isspace]: TAB..CR, FS..US and SPACE. *)
Definition is_space (c : ascii) : bool :=
  let n := code c in
  ((9 <=? n)%nat && (n <=? 13)%nat) || ((28 <=? n)%nat && (n <=? 32)%nat).

Fixpoint lstrip (s : string) : string :=
  match s with
  | EmptyString => EmptyString
  | String c r => if is_space c then lstrip r else s
  end.

(** Drops trailing whitespace: a character is kept when something
    non-blank follows it or when it is itself non-blank. *)
Fixpoint rstrip (s : string) : string :=
  match s with
  | EmptyString => EmptyString
  | String c r =>
      match rstrip r with
      | EmptyString => if is_space c then EmptyString else String c EmptyString
      | r' => String c r'
      end
  end.

(** [s.strip()] *)
Definition strip (s : string) : string := rstrip (lstrip s).

(** [sep.join(parts)] *)
Fixpoint join (sep : string) (parts : list string) : string :=
  match parts with
  | [] => EmptyString
  | [p] => p
  | p :: rest => p ++ sep ++ join sep rest
  end.

(** [s.startswith(p)] *)
Fixpoint startswith (p s : string) : bool :=
  match p, s with
  | EmptyString, _ => true
  | String _ _, EmptyString => false
  | String a p', String b s' => Ascii.eqb a b && startswith p' s'
  end.

(** [s[n:]] *)
Fixpoint drop (n : nat) (s : string) : string :=
  match n, s with
  | O, _ => s
  | S n', EmptyString => EmptyString
  | S n', String _ r => drop n' r
  end.

(** [s.replace(c, "")] for a one-character [c]. *)
Fixpoint remove_char (x : ascii) (s : string) : string :=
  match s with
  | EmptyString => EmptyString
  | String c r => if Ascii.eqb c x then remove_char x r else String c (remove_char x r)
  end.

(** Truthiness of a string: [bool(s)]. *)
Definition truthy (s : string) : bool :=
  match s with EmptyString => false | _ => true end.

(** Python's [<] on [str]: lexicographic on code points. *)
Fixpoint ltb (a b : string) : bool :=
  match a, b with
  | _, EmptyString => false
  | EmptyString, String _ _ => true
  | String x a', String y b' =>
      if (code x <? code y)%nat then true
      else if (code y <? code x)%nat then false
      else ltb a' b'
  end.

(** [str(n)] for a non-negative integer. *)
Definition of_nat (n : nat) : string := NilEmpty.string_of_uint (Nat.to_uint n).

End PyStr.

(* ===================================================================== *)
(** ** [hashlib.md5]: the MD5 message digest (RFC 1321) on 32-bit words *)
(* ===================================================================== *)

Module Md5.
Local Open Scope Z_scope.

Definition mask32 (x : Z) : Z := Z.land x 0xffffffff.
Definition add32 (x y : Z) : Z := mask32 (x + y).
Definition not32 (x : Z) : Z := Z.lxor x 0xffffffff.
Definition rotl32 (x c : Z) : Z :=
  mask32 (Z.lor (Z.shiftl x c) (Z.shiftr x (32 - c))).

(** Per-round left rotations. *)
Definition S_table : list Z :=
  [ 7; 12; 17; 22; 7; 12; 17; 22; 7; 12; 17; 22; 7; 12; 17; 22;
    5;  9; 14; 20; 5;  9; 14; 20; 5;  9; 14; 20; 5;  9; 14; 20;
    4; 11; 16; 23; 4; 11; 16; 23; 4; 11; 16; 23; 4; 11; 16; 23;
    6; 10; 15; 21; 6; 10; 15; 21; 6; 10; 15; 21; 6; 10; 15; 21 ].

(** [K_table[i] = floor(2^32 * |sin(i + 1)|)]. *)
Definition K_table : list Z :=
  [ 0xd76aa478; 0xe8c7b756; 0x242070db; 0xc1bdceee;
    0xf57c0faf; 0x4787c62a; 0xa8304613; 0xfd469501;
    0x698098d8; 0x8b44f7af; 0xffff5bb1; 0x895cd7be;
    0x6b901122; 0xfd987193; 0xa679438e; 0x49b40821;
    0xf61e2562; 0xc040b340; 0x265e5a51; 0xe9b6c7aa;
    0xd62f105d; 0x02441453; 0xd8a1e681; 0xe7d3fbc8;
    0x21e1cde6; 0xc33707d6; 0xf4d50d87; 0x455a14ed;
    0xa9e3e905; 0xfcefa3f8; 0x676f02d9; 0x8d2a4c8a;
    0xfffa3942; 0x8771f681; 0x6d9d6122; 0xfde5380c;
    0xa4beea44; 0x4bdecfa9; 0xf6bb4b60; 0xbebfbc70;
    0x289b7ec6; 0xeaa127fa; 0xd4ef3085; 0x04881d05;
    0xd9d4d039; 0xe6db99e5; 0x1fa27cf8; 0xc4ac5665;
    0xf4292244; 0x432aff97; 0xab9423a7; 0xfc93a039;
    0x655b59c3; 0x8f0ccc92; 0xffeff47d; 0x85845dd1;
    0x6fa87e4f; 0xfe2ce6e0; 0xa3014314; 0x4e0811a1;
    0xf7537e82; 0xbd3af235; 0x2ad7d2bb; 0xeb86d391 ].

Record regs : Type := Regs { rA : Z; rB : Z; rC : Z; rD : Z }.

Definition init_regs : regs :=
  Regs 0x67452301 0xefcdab89 0x98badcfe 0x10325476.

(** The auxiliary function of step [i] and the index of the message
    word it consumes. *)
Definition mix (i : nat) (b c d : Z) : Z * nat :=
  if (i <? 16)%nat then
    (Z.lor (Z.land b c) (Z.land (not32 b) d), i)
  else if (i <? 32)%nat then
    (Z.lor (Z.land d b) (Z.land (not32 d) c), (5 * i + 1) mod 16)%nat
  else if (i <? 48)%nat then
    (Z.lxor b (Z.lxor c d), (3 * i + 5) mod 16)%nat
  else
    (Z.lxor c (Z.lor b (not32 d)), (7 * i) mod 16)%nat.

Definition step (M : list Z) (r : regs) (i : nat) : regs :=
  let '(f, g) := mix i (rB r) (rC r) (rD r) in
  let f' := add32 (add32 (add32 f (rA r)) (nth i K_table 0)) (nth g M 0) in
  Regs (rD r) (add32 (rB r) (rotl32 f' (nth i S_table 0))) (rB r) (rC r).

(** One 512-bit block, given as sixteen little-endian words. *)
Definition compress (r : regs) (M : list Z) : regs :=
  let r' := fold_left (step M) (seq 0 64) r in
  Regs (add32 (rA r) (rA r')) (add32 (rB r) (rB r'))
       (add32 (rC r) (rC r')) (add32 (rD r) (rD r')).

(** Little-endian bytes of a word, low byte first. *)
Fixpoint le_bytes (n : nat) (x : Z) : list Z :=
  match n with
  | O => []
  | S n' => Z.land x 0xff :: le_bytes n' (Z.shiftr x 8)
  end.

Fixpoint le_word (bs : list Z) : Z :=
  match bs with
  | [] => 0
  | b :: r => Z.lor b (Z.shiftl (le_word r) 8)
  end.

(** Cuts a byte list into [n] words of four bytes. *)
Fixpoint words (n : nat) (bs : list Z) : list Z :=
  match n with
  | O => []
  | S n' => le_word (firstn 4 bs) :: words n' (skipn 4 bs)
  end.

(** Message, then 0x80, then zeros up to 56 modulo 64, then the bit
    length on eight bytes. *)
Definition pad (msg : list Z) : list Z :=
  let len := length msg in
  let zeros := ((119 - len mod 64) mod 64)%nat in
  msg ++ [0x80] ++ repeat 0 zeros ++ le_bytes 8 (Z.of_nat len * 8).

Fixpoint blocks (n : nat) (bs : list Z) (r : regs) : regs :=
  match n with
  | O => r
  | S n' => blocks n' (skipn 64 bs) (compress r (words 16 (firstn 64 bs)))
  end.

Definition digest (msg : list Z) : list Z :=
  let p := pad msg in
  let r := blocks (length p / 64) p init_regs in
  le_bytes 4 (rA r) ++ le_bytes 4 (rB r) ++ le_bytes 4 (rC r) ++ le_bytes 4 (rD r).

Definition hex_digit (n : Z) : ascii :=
  ascii_of_nat (Z.to_nat (if n <? 10 then 48 + n else 87 + n)).

Fixpoint hex (bs : list Z) : string :=
  match bs with
  | [] => EmptyString
  | b :: r => String (hex_digit (Z.shiftr b 4)) (String (hex_digit (Z.land b 0xf)) (hex r))
  end.

(** [s.encode("utf-8")] *)
Definition encode (s : string) : list Z :=
  map (fun c => Z.of_nat (nat_of_ascii c)) (list_ascii_of_string s).

(** [hashlib.md5(s.encode("utf-8")).hexdigest()] *)
Definition hexdigest (s : string) : string := hex (digest (encode s)).

End Md5.

(* ===================================================================== *)
(** ** [decimal.Decimal]: construction from text, sign test, [str] *)
(* ===================================================================== *)

Module Decimal.
Local Open Scope Z_scope.

(** The [_exp] slot: an integer, or ['F'], ['n'], ['N'] for the
    special values. *)
Inductive exponent : Type :=
| Exp (e : Z)
| ExpInf
| ExpNaN
| ExpSNaN.

(** [_sign] is [true] for a negative number; [_int] holds the
    coefficient digits. *)
Record t : Type := Make { sign : bool; int : string; exp : exponent }.

Definition is_digit (c : ascii) : bool :=
  (48 <=? PyStr.code c)%nat && (PyStr.code c <=? 57)%nat.

(** Longest prefix of digits, and what follows it. *)
Fixpoint digits_span (s : string) : string * string :=
  match s with
  | EmptyString => (EmptyString, EmptyString)
  | String c r =>
      if is_digit c
      then let '(d, rest) := digits_span r in (String c d, rest)
      else (EmptyString, s)
  end.

Fixpoint lstrip_zeros (s : string) : string :=
  match s with
  | EmptyString => EmptyString
  | String c r => if Ascii.eqb c "0" then lstrip_zeros r else s
  end.

(** [str(int(digits))] for a non-empty digit string. *)
Definition normal_digits (digits : string) : string :=
  match lstrip_zeros digits with
  | EmptyString => "0"%string
  | d => d
  end.

Fixpoint int_of_digits (acc : Z) (s : string) : Z :=
  match s with
  | EmptyString => acc
  | String c r => int_of_digits (10 * acc + (Z.of_nat (PyStr.code c) - 48)) r
  end.

(** Optional leading [-] or [+]. *)
Definition parse_sign (s : string) : bool * string :=
  match s with
  | String "-" r => (true, r)
  | String "+" r => (false, r)
  | _ => (false, s)
  end.

(** The exponent part up to the end of the text: nothing, or [E]
    with an optionally signed, non-empty run of digits. *)
Definition parse_exp (s : string) : option Z :=
  match s with
  | EmptyString => Some 0
  | String c r =>
      if Ascii.eqb (PyStr.lower_char c) "e" then
        let '(neg, r') := parse_sign r in
        match digits_span r' with
        | (String _ _ as d, EmptyString) =>
            Some (if neg then - int_of_digits 0 d else int_of_digits 0 d)
        | _ => None
        end
      else None
  end.

(** A number with at least one digit: coefficient and exponent. *)
Definition parse_number (s : string) : option (string * Z) :=
  let '(ip, r1) := digits_span s in
  let '(fp, r2) :=
    match r1 with
    | String "." r => digits_span r
    | _ => (EmptyString, r1)
    end in
  match (ip ++ fp)%string with
  | EmptyString => None
  | ds =>
      match parse_exp r2 with
      | Some e => Some (normal_digits ds, e - Z.of_nat (String.length fp))
      | None => None
      end
  end.

(** [Inf], [Infinity], [NaN<digits>], [sNaN<digits>], in any case. *)
Definition parse_special (s : string) : option (string * exponent) :=
  let l := PyStr.lower s in
  if String.eqb l "inf" || String.eqb l "infinity" then Some ("0"%string, ExpInf)
  else
    let '(signal, r) :=
      match l with
      | String "s" r => (true, r)
      | _ => (false, l)
      end in
    if PyStr.startswith "nan" r then
      match digits_span (PyStr.drop 3 r) with
      | (diag, EmptyString) =>
          Some (lstrip_zeros diag, if signal then ExpSNaN else ExpNaN)
      | _ => None
      end
    else None.

(** [Decimal(text)]; [None] stands for the [InvalidOperation] raised
    on a malformed literal. *)
Definition of_string (value : string) : option t :=
  let '(sg, body) := parse_sign (PyStr.remove_char "_" (PyStr.strip value)) in
  match parse_number body with
  | Some (ds, e) => Some (Make sg ds (Exp e))
  | None =>
      match parse_special body with
      | Some (ds, x) => Some (Make sg ds x)
      | None => None
      end
  end.

(** [d <= 0]; [None] stands for the [InvalidOperation] that a
    comparison involving a NaN signals. *)
Definition le_zero (d : t) : option bool :=
  match exp d with
  | ExpNaN | ExpSNaN => None
  | ExpInf => Some (sign d)
  | Exp _ => Some (String.eqb (int d) "0" || sign d)
  end.

(** ["%+d" % n] *)
Definition signed (n : Z) : string :=
  ((if Z.ltb n 0 then "-" else "+") ++ PyStr.of_nat (Z.abs_nat n))%string.

Definition zeros (n : Z) : string :=
  string_of_list_ascii (repeat "0"%char (Z.to_nat n)).

Definition take (n : Z) (s : string) : string :=
  String.substring 0 (Z.to_nat n) s.

(** [str(d)]: scientific notation with the default context. *)
Definition to_string (d : t) : string :=
  let sg := if sign d then "-"%string else ""%string in
  match exp d with
  | ExpInf => (sg ++ "Infinity")%string
  | ExpNaN => (sg ++ "NaN" ++ int d)%string
  | ExpSNaN => (sg ++ "sNaN" ++ int d)%string
  | Exp e =>
      let len := Z.of_nat (String.length (int d)) in
      let leftdigits := e + len in
      let dotplace := if (e <=? 0) && (-6 <? leftdigits) then leftdigits else 1 in
      let '(intpart, fracpart) :=
        if dotplace <=? 0 then
          ("0"%string, ("." ++ zeros (- dotplace) ++ int d)%string)
        else if len <=? dotplace then
          ((int d ++ zeros (dotplace - len))%string, ""%string)
        else
          (take dotplace (int d),
           ("." ++ PyStr.drop (Z.to_nat dotplace) (int d))%string) in
      let ex :=
        if leftdigits =? dotplace then ""%string
        else ("E" ++ signed (leftdigits - dotplace))%string in
      (sg ++ intpart ++ fracpart ++ ex)%string
  end.

End Decimal.

(* ===================================================================== *)
(** ** Python containers: insertion-ordered [dict] and request parameters *)
(* ===================================================================== *)

Module Dict.

(** A [Dict[str, str]]: the entries in insertion order.  A dictionary
    never holds the same key twice; [wf] records that. *)
Definition t : Type := list (string * string).

Definition keys (d : t) : list string := map fst d.

Definition wf (d : t) : Prop := NoDup (keys d).

Fixpoint get (k : string) (d : t) : option string :=
  match d with
  | [] => None
  | (k', v) :: r => if String.eqb k k' then Some v else get k r
  end.

(** [d[k] = v]: an existing key keeps its place, a new one goes last. *)
Fixpoint set (k v : string) (d : t) : t :=
  match d with
  | [] => [(k, v)]
  | (k', v') :: r =>
      if String.eqb k k' then (k', v) :: r else (k', v') :: set k v r
  end.

(** [d.update(e)] *)
Definition update (d e : t) : t :=
  fold_left (fun acc kv => set (fst kv) (snd kv) acc) e d.

(** [bool(d)] *)
Definition truthy (d : t) : bool :=
  match d with [] => false | _ => true end.

(** [sorted(d.items(), key=lambda x: x[0])]: a stable sort on the key;
    an entry is placed before the first later entry whose key is not
    smaller. *)
Fixpoint insert_by_key (x : string * string) (l : list (string * string))
  : list (string * string) :=
  match l with
  | [] => [x]
  | y :: r =>
      if PyStr.ltb (fst y) (fst x) then y :: insert_by_key x r else x :: y :: r
  end.

Definition sorted_by_key (items : list (string * string)) : list (string * string) :=
  fold_right insert_by_key [] items.

End Dict.

Module MultiDict.

(** [request.args] and [request.form]: the submitted pairs in order,
    a name possibly repeated. *)
Definition t : Type := list (string * string).

(** [md.get(k)]: the first value submitted under [k]. *)
Definition get (k : string) (md : t) : option string := Dict.get k md.

(** [md.get(k, default)] *)
Definition get_default (k default : string) (md : t) : string :=
  match get k md with Some v => v | None => default end.

Definition mem (k : string) (ks : list string) : bool :=
  existsb (String.eqb k) ks.

Fixpoint items_from (seen : list string) (md : t) : list (string * string) :=
  match md with
  | [] => []
  | (k, v) :: r =>
      if mem k seen then items_from seen r else (k, v) :: items_from (k :: seen) r
  end.

(** [md.items()]: every name once, with its first value. *)
Definition items (md : t) : list (string * string) := items_from [] md.

End MultiDict.

(* ===================================================================== *)
(** ** [urllib.parse]: [quote_plus] and [urlencode] *)
(* ===================================================================== *)

Module Url.

(** Characters [quote] never escapes: letters, digits and [_.-~]. *)
Definition always_safe (c : ascii) : bool :=
  let n := PyStr.code c in
  ((65 <=? n)%nat && (n <=? 90)%nat) || ((97 <=? n)%nat && (n <=? 122)%nat)
  || ((48 <=? n)%nat && (n <=? 57)%nat)
  || Ascii.eqb c "_" || Ascii.eqb c "." || Ascii.eqb c "-" || Ascii.eqb c "~".

Definition hex_upper (n : nat) : ascii :=
  ascii_of_nat (if (n <? 10)%nat then 48 + n else 55 + n).

Fixpoint quote_plus (s : string) : string :=
  match s with
  | EmptyString => EmptyString
  | String c r =>
      if always_safe c then String c (quote_plus r)
      else if Ascii.eqb c " " then String "+" (quote_plus r)
      else String "%" (String (hex_upper (PyStr.code c / 16))
                      (String (hex_upper (PyStr.code c mod 16)) (quote_plus r)))
  end.

(** [urlencode(params, quote_via=quote_plus)] *)
Definition urlencode (params : Dict.t) : string :=
  PyStr.join "&"
    (map (fun kv => quote_plus (fst kv) ++ "=" ++ quote_plus (snd kv)) params).

End Url.

(* ===================================================================== *)
(** ** robokassa_client.py *)
(* ===================================================================== *)

Definition ROBOKASSA_GATEWAY : string := "https://auth.robokassa.ru/Merchant/Index.aspx".

(** [shp or {}] *)
Definition or_empty (shp : option Dict.t) : Dict.t :=
  match shp with
  | Some d => if Dict.truthy d then d else []
  | None => []
  end.

Definition shp_item (kv : string * string) : string :=
  "Shp_" ++ fst kv ++ "=" ++ snd kv.

Definition _format_shp_part (shp : Dict.t) : string :=
  if negb (Dict.truthy shp) then ""
  else
    let items := Dict.sorted_by_key shp in
    PyStr.join ":" (map shp_item items).

Definition _md5_upper (s : string) : string := PyStr.upper (Md5.hexdigest s).

(** [build_payment_url], first part: the value bound to [signature],
    computed from [shp or {}], the base string and the extension part. *)
Definition payment_signature
    (merchant_login password1 out_sum inv_id : string) (shp : option Dict.t) : string :=
  let shp := or_empty shp in
  let base_for_sign := merchant_login ++ ":" ++ out_sum ++ ":" ++ inv_id ++ ":" ++ password1 in
  let shp_part := _format_shp_part shp in
  let base_for_sign :=
    if PyStr.truthy shp_part then base_for_sign ++ ":" ++ shp_part else base_for_sign in
  _md5_upper base_for_sign.

(** [build_payment_url], second part: the [params] dictionary as it
    stands when [urlencode] is called, after the optional description,
    the test flag, the extension pairs and [extra_params]. *)
Definition payment_params
    (merchant_login password1 out_sum inv_id : string)
    (description : option string) (shp : option Dict.t) (is_test : bool)
    (extra_params : option Dict.t) : Dict.t :=
  let signature := payment_signature merchant_login password1 out_sum inv_id shp in
  let shp := or_empty shp in
  let params :=
    [ ("MerchantLogin", merchant_login);
      ("OutSum", out_sum);
      ("InvId", inv_id);
      ("SignatureValue", signature) ] in
  let params :=
    match description with
    | Some d => if PyStr.truthy d then Dict.set "Description" d params else params
    | None => params
    end in
  let params := if is_test then Dict.set "IsTest" "1" params else params in
  let params :=
    fold_left (fun ps kv => Dict.set ("Shp_" ++ fst kv) (snd kv) ps) shp params in
  match extra_params with
  | Some e => if Dict.truthy e then Dict.update params e else params
  | None => params
  end.

(** [build_payment_url]: the gateway address, [?] and the encoded
    [params]. *)
Definition build_payment_url
    (merchant_login password1 out_sum inv_id : string)
    (description : option string) (shp : option Dict.t) (is_test : bool)
    (extra_params : option Dict.t) : string :=
  let params :=
    payment_params merchant_login password1 out_sum inv_id
                   description shp is_test extra_params in
  let query := Url.urlencode params in
  ROBOKASSA_GATEWAY ++ "?" ++ query.

Definition verify_signature_from_result
    (out_sum inv_id signature_value password2 : string) (shp : option Dict.t) : bool :=
  let shp := or_empty shp in
  let base := out_sum ++ ":" ++ inv_id ++ ":" ++ password2 in
  let shp_part := _format_shp_part shp in
  let base := if PyStr.truthy shp_part then base ++ ":" ++ shp_part else base in
  let expected := _md5_upper base in
  String.eqb expected (PyStr.upper signature_value).


(* ===================================================================== *)
(** ** config.py and the order store of app.py *)
(* ===================================================================== *)

Record Config : Type := {
  ROBOKASSA_MERCHANT_LOGIN : string;
  ROBOKASSA_PASSWORD1 : string;
  ROBOKASSA_PASSWORD2 : string;
  ROBOKASSA_TEST_MODE : bool
}.

(** The values [Config] takes when the environment sets nothing. *)
Definition default_config : Config :=
  {| ROBOKASSA_MERCHANT_LOGIN := "robo-demo";
     ROBOKASSA_PASSWORD1 := "password1";
     ROBOKASSA_PASSWORD2 := "password2";
     ROBOKASSA_TEST_MODE := true |}.

Module Order.

(** What [payment_result] files under the ["robokassa"] key. *)
Record gateway_data : Type := {
  OutSum : string;
  shp_echo : Dict.t
}.

(** An order record.  ["amount"] and ["description"] may hold [None];
    the ["shp"] and ["robokassa"] keys may be absent. *)
Record t : Type := {
  id : string;
  amount : option Decimal.t;
  description : option string;
  status : string;
  shp : option Dict.t;
  robokassa : option gateway_data
}.

Definition with_status (o : t) (st : string) : t :=
  {| id := id o; amount := amount o; description := description o;
     status := st; shp := shp o; robokassa := robokassa o |}.

(** [order.setdefault("robokassa", {}).update(data)]: both keys of
    [data] overwrite what was filed before. *)
Definition with_robokassa (o : t) (data : gateway_data) : t :=
  {| id := id o; amount := amount o; description := description o;
     status := status o; shp := shp o; robokassa := Some data |}.

End Order.

Abbreviation store := (gmap string Order.t).

Inductive exn : Type :=
| OrderNotFoundError (msg : string)
| ValueError (msg : string)
| TypeError
| InvalidOperation.

Definition _get_order_data (order_id : string) (ORDERS : store) : exn + Order.t :=
  match ORDERS !! order_id with
  | Some order => inr order
  | None => inl (OrderNotFoundError ("Order " ++ order_id ++ " not found"))
  end.

(** [amount <= 0] signals [InvalidOperation] on a NaN; a [None]
    description is falsy like the empty one. *)
Definition _validate_order_parameters
    (order_id : string) (amount : Decimal.t) (description : option string) : exn + unit :=
  match Decimal.le_zero amount with
  | None => inl InvalidOperation
  | Some true => inl (ValueError "Amount must be positive")
  | Some false =>
      match description with
      | Some d => if PyStr.truthy d then inr tt else inl (ValueError "Description required")
      | None => inl (ValueError "Description required")
      end
  end.

Definition _update_order_status
    (order_id status : string) (robokassa_data : option Order.gateway_data)
    (ORDERS : store) : store :=
  match ORDERS !! order_id with
  | None =>
      <[order_id := {| Order.id := order_id; Order.amount := None;
                       Order.description := None; Order.status := status;
                       Order.shp := None; Order.robokassa := None |}]> ORDERS
  | Some order =>
      let order := Order.with_status order status in
      let order :=
        match robokassa_data with
        | Some data => Order.with_robokassa order data
        | None => order
        end in
      <[order_id := order]> ORDERS
  end.

(* ===================================================================== *)
(** ** The routes of app.py *)
(* ===================================================================== *)

(** The [payment_data] handed to the success page: the stored record,
    or for an id the store does not know a stand-in made of the
    request's own [InvId] and [OutSum] with status ["unknown"]. *)
Inductive page_order : Type :=
| Stored (order : Order.t)
| Unknown (id amount : string).

(** What a view returns: a text body, a rendered template with its
    context, or a redirect. *)
Inductive body : Type :=
| Text (s : string)
| IndexPage (orders : store)
| FailPage (error_message order_id : string)
| SuccessPage (order_id : string) (payment_data : page_order)
| Redirect (location : string).

Record response : Type := Response { content : body; code : nat }.

(** The [errorhandler(500)] page, which answers an exception no view
    catches. *)
Definition internal_error : response :=
  Response (FailPage "Внутренняя ошибка сервера" "") 500.

(** [{k[4:]: v for k, v in params.items() if k.startswith("Shp_")}] *)
Definition collect_shp (params : MultiDict.t) : Dict.t :=
  fold_left
    (fun d kv =>
       if PyStr.startswith "Shp_" (fst kv)
       then Dict.set (PyStr.drop 4 (fst kv)) (snd kv) d else d)
    (MultiDict.items params) [].

(** [x or ""]-style truthiness of an optional form value. *)
Definition nonempty (v : option string) : option string :=
  match v with
  | Some s => if PyStr.truthy s then Some s else None
  | None => None
  end.

Definition index (ORDERS : store) : response * store :=
  (Response (IndexPage ORDERS) 200, ORDERS).

Definition create_order (form : MultiDict.t) (ORDERS : store) : response * store :=
  let amount := PyStr.strip (MultiDict.get_default "amount" "0" form) in
  let description := PyStr.strip (MultiDict.get_default "description" "Заказ" form) in
  let order_id :=
    match nonempty (MultiDict.get "order_id" form) with
    | Some v => v
    | None => PyStr.of_nat (size ORDERS + 1000)
    end in
  match Decimal.of_string amount with
  | None => (Response (Text "Некорректная сумма") 400, ORDERS)
  | Some amount_dec =>
      let ORDERS :=
        <[order_id := {| Order.id := order_id; Order.amount := Some amount_dec;
                         Order.description := Some description;
                         Order.status := "created";
                         Order.shp := Some [("user", "demo")];
                         Order.robokassa := None |}]> ORDERS in
      (Response (Redirect "/") 302, ORDERS)
  end.

Definition create_payment (cfg : Config) (form : MultiDict.t) (ORDERS : store)
  : response * store :=
  match nonempty (MultiDict.get "order_id" form) with
  | None => (Response (Text "order_id required") 400, ORDERS)
  | Some order_id =>
      match _get_order_data order_id ORDERS with
      | inl _ => (Response (Text "Order not found") 404, ORDERS)
      | inr order =>
          let amount := Order.amount order in
          let description := Order.description order in
          let shp := match Order.shp order with Some d => d | None => [] end in
          match amount with
          | None => (internal_error, ORDERS)
          | Some amount =>
              match _validate_order_parameters order_id amount description with
              | inl (ValueError e) => (Response (Text e) 400, ORDERS)
              | inl _ => (internal_error, ORDERS)
              | inr _ =>
                  let url :=
                    build_payment_url
                      (ROBOKASSA_MERCHANT_LOGIN cfg) (ROBOKASSA_PASSWORD1 cfg)
                      (Decimal.to_string amount) order_id
                      description (Some shp) (ROBOKASSA_TEST_MODE cfg) None in
                  let ORDERS := _update_order_status order_id "pending" None ORDERS in
                  (Response (Redirect url) 302, ORDERS)
              end
          end
      end
  end.

Definition payment_success (cfg : Config) (args : MultiDict.t) (ORDERS : store)
  : response * store :=
  let out_sum := MultiDict.get_default "OutSum" "" args in
  let inv_id := MultiDict.get_default "InvId" "" args in
  let signature := MultiDict.get_default "SignatureValue" "" args in
  let shp := collect_shp args in
  let base :=
    ROBOKASSA_MERCHANT_LOGIN cfg ++ ":" ++ out_sum ++ ":" ++ inv_id ++ ":"
    ++ ROBOKASSA_PASSWORD1 cfg in
  let shp_part := _format_shp_part shp in
  let base := if PyStr.truthy shp_part then base ++ ":" ++ shp_part else base in
  let expected := _md5_upper base in
  if negb (String.eqb expected (PyStr.upper signature)) then
    (Response (FailPage "Invalid signature" inv_id) 400, ORDERS)
  else
    let order :=
      match _get_order_data inv_id ORDERS with
      | inr order => Stored order
      | inl _ => Unknown inv_id out_sum
      end in
    (Response (SuccessPage inv_id order) 200, ORDERS).

Definition payment_fail (args : MultiDict.t) (ORDERS : store) : response * store :=
  let inv_id := MultiDict.get_default "InvId" "" args in
  (Response (FailPage "Платёж отменён или не прошёл" inv_id) 200, ORDERS).

Definition payment_result (cfg : Config) (form : MultiDict.t) (ORDERS : store)
  : response * store :=
  let out_sum := MultiDict.get_default "OutSum" "" form in
  let inv_id := nonempty (MultiDict.get "InvId" form) in
  let signature := MultiDict.get_default "SignatureValue" "" form in
  let shp := collect_shp form in
  match inv_id with
  | None => (Response (Text "InvId missing") 400, ORDERS)
  | Some inv_id =>
      let valid :=
        verify_signature_from_result
          out_sum inv_id signature (ROBOKASSA_PASSWORD2 cfg) (Some shp) in
      if negb valid then
        (Response (Text "Invalid signature") 400, ORDERS)
      else
        let ORDERS :=
          _update_order_status inv_id "paid"
            (Some {| Order.OutSum := out_sum; Order.shp_echo := shp |}) ORDERS in
        (Response (Text ("OK" ++ inv_id)) 200, ORDERS)
  end.

(** One request to the application, by route. *)
Inductive request : Type :=
| GetIndex
| PostCreateOrder (form : MultiDict.t)
| PostCreatePayment (form : MultiDict.t)
| GetPaymentSuccess (args : MultiDict.t)
| GetPaymentFail (args : MultiDict.t)
| PostPaymentResult (form : MultiDict.t).

Definition handle (cfg : Config) (req : request) (ORDERS : store) : response * store :=
  match req with
  | GetIndex => index ORDERS
  | PostCreateOrder form => create_order form ORDERS
  | PostCreatePayment form => create_payment cfg form ORDERS
  | GetPaymentSuccess args => payment_success cfg args ORDERS
  | GetPaymentFail args => payment_fail args ORDERS
  | PostPaymentResult form => payment_result cfg form ORDERS
  end.

(** The store after a sequence of requests served one after another. *)
Definition run (cfg : Config) (reqs : list request) (ORDERS : store) : store :=
  fold_left (fun st req => snd (handle cfg req st)) reqs ORDERS.

(** The status an order id has in the store, if it is there. *)
Definition status_of (order_id : string) (ORDERS : store) : option string :=
  Order.status <$> ORDERS !! order_id.

(* ===================================================================== *)
(** ** Notions of the design document *)
(* ===================================================================== *)

(** Ascending order of two entries by key, as Python compares [str]:
    the second key is not smaller than the first. *)
Definition key_le (x y : string * string) : Prop :=
  PyStr.ltb (fst y) (fst x) = false.

(** The canonical string in the document's words: the fields in order,
    then the secret key, then the extension pairs in ascending order of
    key, each rendered [Shp_key=value]; everything joined by colons.
    Nothing is appended for an empty extension set. *)
Definition canonical_string
    (fields : list string) (secret : string) (ext : Dict.t) : string :=
  PyStr.join ":" (fields ++ [secret] ++ map shp_item (Dict.sorted_by_key ext)).

(** [sign] of the document: upper-case hexadecimal MD5 of the canonical
    string. *)
Definition sign (fields : list string) (secret : string) (ext : Dict.t) : string :=
  PyStr.upper (Md5.hexdigest (canonical_string fields secret ext)).



(** The text [s] with the character at position [i] replaced by [c]. *)
Fixpoint set_char (i : nat) (c : ascii) (s : string) : string :=
  match s, i with
  | EmptyString, _ => EmptyString
  | String _ r, O => String c r
  | String x r, S i' => String x (set_char i' c r)
  end.

(** An extension pair as it travels in a query string. *)
Definition shp_param (kv : string * string) : string * string :=
  ("Shp_" ++ fst kv, snd kv).

(** The parameters [build_payment_url] sets before the extension pairs:
    the four fixed ones, then the description when it is non-empty and
    the test flag when it is on. *)
Definition fixed_params
    (merchant_login out_sum inv_id signature : string)
    (description : option string) (is_test : bool) : Dict.t :=
  ([ ("MerchantLogin", merchant_login); ("OutSum", out_sum);
     ("InvId", inv_id); ("SignatureValue", signature) ]
   ++ match description with
      | Some d => if PyStr.truthy d then [("Description", d)] else []
      | None => []
      end
   ++ (if is_test then [("IsTest", "1")] else []))%list.

(** The query a browser brings back to the redirect-return route: the
    parameters of a payment URL with [cand] in the place of the
    signature. *)
Definition return_args
    (merchant_login out_sum inv_id cand : string)
    (description : option string) (is_test : bool) (ext : Dict.t) : MultiDict.t :=
  (fixed_params merchant_login out_sum inv_id cand description is_test
   ++ map shp_param ext)%list.

(** The id [create_order] registers an order under: the submitted
    [order_id] when there is one, else the size of the store plus 1000. *)
Definition registered_id (form : MultiDict.t) (ORDERS : store) : string :=
  match nonempty (MultiDict.get "order_id" form) with
  | Some v => v
  | None => PyStr.of_nat (size ORDERS + 1000)
  end.


(** [d > 0] for a decimal that is not a NaN. *)
Definition positive (d : Decimal.t) : Prop := Decimal.le_zero d = Some false.

(** The form the gateway posts to the callback route for order [1001]
    of amount [99.90], echoing the extension pair [user=demo]; the
    signature is the MD5 of [99.90:1001:password2:Shp_user=demo]. *)
Definition callback_1001 : MultiDict.t :=
  [ ("OutSum", "99.90"); ("InvId", "1001");
    ("SignatureValue", "95E77E1B23AC16BAB610D25D0FDA8ED6");
    ("Shp_user", "demo") ].

(** A life of order [1001]: registered, sent to the gateway, confirmed
    by the callback. *)
Definition demo_trace : list request :=
  [ PostCreateOrder
      [("order_id", "1001"); ("amount", "99.90"); ("description", "Order 1001")];
    PostCreatePayment [("order_id", "1001")];
    PostPaymentResult callback_1001 ].

(** Every character of [s] passes the test [p]. *)
Fixpoint all_chars (p : ascii -> bool) (s : string) : bool :=
  match s with
  | EmptyString => true
  | String c r => p c && all_chars p r
  end.

(** The digits [0-9] and the capitals [A-F]. *)
Definition is_upper_hex (c : ascii) : bool :=
  let n := PyStr.code c in
  ((48 <=? n)%nat && (n <=? 57)%nat) || ((65 <=? n)%nat && (n <=? 70)%nat).


(** [os.environ.get(name, default)] *)
Definition environ_get (name default : string) (environ : Dict.t) : string :=
  match Dict.get name environ with
  | Some v => v
  | None => default
  end.

(** config.py: the settings the application reads, each taken from the
    process environment with its default when the variable is not set;
    the test mode is on when the variable reads exactly ["1"]. *)
Definition Config_of_environ (environ : Dict.t) : Config :=
  {| ROBOKASSA_MERCHANT_LOGIN := environ_get "ROBOKASSA_MERCHANT_LOGIN" "robo-demo" environ;
     ROBOKASSA_PASSWORD1 := environ_get "ROBOKASSA_PASSWORD1" "password1" environ;
     ROBOKASSA_PASSWORD2 := environ_get "ROBOKASSA_PASSWORD2" "password2" environ;
     ROBOKASSA_TEST_MODE :=
       String.eqb (environ_get "ROBOKASSA_TEST_MODE" "1" environ) "1" |}.

(** The parameter names [build_payment_url] sets itself. *)
Definition fixed_names : list string :=
  ["MerchantLogin"; "OutSum"; "InvId"; "SignatureValue"; "Description"; "IsTest"].

(** The characters [quote_plus] may produce: the never-escaped ones,
    [+] for a space, and [%] with the digits of an escape. *)
Definition is_quoted_char (c : ascii) : bool :=
  Url.always_safe c || Ascii.eqb c "+" || Ascii.eqb c "%".

(** The characters of a query string built by [urlencode]. *)
Definition is_query_char (c : ascii) : bool :=
  is_quoted_char c || Ascii.eqb c "=" || Ascii.eqb c "&".

Module Query.

(** The value of a hexadecimal digit, in either case. *)
Definition hex_value (c : ascii) : option nat :=
  let n := PyStr.code c in
  if (48 <=? n)%nat && (n <=? 57)%nat then Some (n - 48)
  else if (65 <=? n)%nat && (n <=? 70)%nat then Some (n - 55)
  else if (97 <=? n)%nat && (n <=? 102)%nat then Some (n - 87)
  else None.

(** [urllib.parse.unquote_plus]: [+] reads as a space, [%XY] with two
    hexadecimal digits as the byte they spell, anything else as
    itself. *)
Fixpoint unquote_plus (s : string) : string :=
  match s with
  | EmptyString => EmptyString
  | String c r =>
      if Ascii.eqb c "+" then String " " (unquote_plus r)
      else if Ascii.eqb c "%" then
        match r with
        | String h (String l r') =>
            match hex_value h, hex_value l with
            | Some a, Some b =>
                String (ascii_of_nat (16 * a + b)) (unquote_plus r')
            | _, _ => String c (unquote_plus r)
            end
        | _ => String c (unquote_plus r)
        end
      else String c (unquote_plus r)
  end.

(** [s.split(sep)] for a one-character separator. *)
Fixpoint split_on (sep : ascii) (s : string) : list string :=
  match s with
  | EmptyString => [EmptyString]
  | String c r =>
      if Ascii.eqb c sep then EmptyString :: split_on sep r
      else
        match split_on sep r with
        | h :: t => String c h :: t
        | [] => [String c EmptyString]
        end
  end.

(** [s.split(sep, 1)]: the text before the first separator and, when
    there is one, the text after it. *)
Fixpoint cut (sep : ascii) (s : string) : string * option string :=
  match s with
  | EmptyString => (EmptyString, None)
  | String c r =>
      if Ascii.eqb c sep then (EmptyString, Some r)
      else let '(a, b) := cut sep r in (String c a, b)
  end.

(** [urllib.parse.parse_qsl(qs, keep_blank_values=True)], from which
    [request.args] is filled: the non-empty segments between [&], each
    cut at its first [=], name and value unquoted; a segment without
    [=] has the empty value. *)
Definition parse_qsl (qs : string) : MultiDict.t :=
  flat_map
    (fun name_value =>
       if PyStr.truthy name_value then
         let '(name, value) := cut "=" name_value in
         [(unquote_plus name,
           unquote_plus (match value with Some v => v | None => EmptyString end))]
       else [])
    (split_on "&" qs).

End Query.

(** The routes answered by [GET]: the index page and the two pages the
    gateway sends the customer back to. *)
Definition is_get (req : request) : bool :=
  match req with
  | GetIndex | GetPaymentSuccess _ | GetPaymentFail _ => true
  | _ => false
  end.

(** The form the gateway posts to the callback route for an order: the
    amount, the order id, the signature over them under the second
    secret key, and the extension pairs it echoes. *)
Definition gateway_callback
    (password2 out_sum inv_id : string) (ext : Dict.t) : MultiDict.t :=
  ([ ("OutSum", out_sum); ("InvId", inv_id);
     ("SignatureValue", sign [out_sum; inv_id] password2 ext) ]
   ++ map shp_param ext)%list.



(* ===================================================================== *)
(** * Properties *)
(* ===================================================================== *)

Local Close Scope string_scope.

(** The digest function agrees with the reference vectors of RFC 1321
    and crosses the one-block boundary correctly. *)
Example md5_empty : Md5.hexdigest "" = "d41d8cd98f00b204e9800998ecf8427e".
Proof. vm_compute. reflexivity. Qed.

Example md5_abc : Md5.hexdigest "abc" = "900150983cd24fb0d6963f7d28e17f72".
Proof. vm_compute. reflexivity. Qed.

Example md5_message_digest :
  Md5.hexdigest "message digest" = "f96b697d7cb7938d525a2f31aaf161d0".
Proof. vm_compute. reflexivity. Qed.

Example md5_two_blocks :
  Md5.hexdigest "aaaaaaaaaaaaaaaaaaaaaaaaaaaaaaaaaaaaaaaaaaaaaaaaaaaaaaaa"
  = "3b0c8ac703f828b04c6c197006d17218".
Proof. vm_compute. reflexivity. Qed.

(** ** Text *)

Section Text.

Lemma upper_char_idem c : PyStr.upper_char (PyStr.upper_char c) = PyStr.upper_char c.
Proof. destruct c as [[] [] [] [] [] [] [] []]; reflexivity. Qed.


Lemma upper_idem s : PyStr.upper (PyStr.upper s) = PyStr.upper s.
Proof.
  induction s as [|c s IH]; simpl; [reflexivity|].
  now rewrite upper_char_idem, IH.
Qed.

Lemma md5_upper_fixed s : PyStr.upper (_md5_upper s) = _md5_upper s.
Proof. unfold _md5_upper. apply upper_idem. Qed.



Lemma upper_set_char i c : forall s,
  PyStr.upper (set_char i c s) = set_char i (PyStr.upper_char c) (PyStr.upper s).
Proof.
  induction i as [|i IH]; intros [|x s]; simpl; try reflexivity.
  now rewrite IH.
Qed.

Lemma set_char_changes i c : forall s old,
  String.get i s = Some old -> c <> old -> set_char i c s <> s.
Proof.
  induction i as [|i IH]; intros [|x s] old; simpl; try discriminate.
  - intros [= ->] Hne [= E]. contradiction.
  - intros Hget Hne [= E]. exact (IH _ _ Hget Hne E).
Qed.

Lemma append_cons x (a b : string) : (String x a ++ b = String x (a ++ b))%string.
Proof. reflexivity. Qed.

Lemma append_assoc (a b c : string) : ((a ++ b) ++ c = a ++ (b ++ c))%string.
Proof.
  induction a as [|x a IH]; [reflexivity|].
  rewrite !append_cons. f_equal. exact IH.
Qed.

Lemma startswith_append p s : PyStr.startswith p (p ++ s) = true.
Proof.
  induction p as [|x p IH]; [reflexivity|].
  rewrite append_cons. simpl. now rewrite Ascii.eqb_refl.
Qed.

Lemma drop_append p s : PyStr.drop (String.length p) (p ++ s) = s.
Proof.
  induction p as [|x p IH]; [now destruct s|].
  rewrite append_cons. simpl. exact IH.
Qed.

(** Python's [<] on text is a strict total order. *)
Lemma code_inj x y : PyStr.code x = PyStr.code y -> x = y.
Proof.
  unfold PyStr.code. intros E.
  rewrite <- (ascii_nat_embedding x), <- (ascii_nat_embedding y).
  now rewrite E.
Qed.

Lemma ltb_irrefl a : PyStr.ltb a a = false.
Proof.
  induction a as [|x a IH]; simpl; [reflexivity|].
  now rewrite Nat.ltb_irrefl.
Qed.

Lemma ltb_asym a : forall b, PyStr.ltb a b = true -> PyStr.ltb b a = false.
Proof.
  induction a as [|x a IH]; intros [|y b]; simpl; try easy.
  destruct (Nat.ltb_spec (PyStr.code x) (PyStr.code y)) as [Hlt|Hge];
    destruct (Nat.ltb_spec (PyStr.code y) (PyStr.code x)) as [Hlt'|Hge'];
    try easy; try lia.
  apply IH.
Qed.

Lemma ltb_trans a : forall b c,
  PyStr.ltb a b = true -> PyStr.ltb b c = true -> PyStr.ltb a c = true.
Proof.
  induction a as [|x a IH]; intros [|y b] [|z c]; simpl; try easy.
  destruct (Nat.ltb_spec (PyStr.code x) (PyStr.code y));
    destruct (Nat.ltb_spec (PyStr.code y) (PyStr.code x));
    destruct (Nat.ltb_spec (PyStr.code y) (PyStr.code z));
    destruct (Nat.ltb_spec (PyStr.code z) (PyStr.code y));
    destruct (Nat.ltb_spec (PyStr.code x) (PyStr.code z));
    destruct (Nat.ltb_spec (PyStr.code z) (PyStr.code x));
    try easy; try lia.
  apply IH.
Qed.

Lemma ltb_total a : forall b,
  PyStr.ltb a b = false -> PyStr.ltb b a = false -> a = b.
Proof.
  induction a as [|x a IH]; intros [|y b]; simpl; try easy.
  destruct (Nat.ltb_spec (PyStr.code x) (PyStr.code y));
    destruct (Nat.ltb_spec (PyStr.code y) (PyStr.code x));
    try easy; try lia.
  intros Hab Hba. f_equal; [apply code_inj; lia | now apply IH].
Qed.

(** A transitive form of "not smaller": [b] is not below [a] and [c]
    is not below [b]. *)
Lemma not_ltb_trans a b c :
  PyStr.ltb b a = false -> PyStr.ltb c b = false -> PyStr.ltb c a = false.
Proof.
  intros Hba Hcb. destruct (PyStr.ltb c a) eqn:Hca; [|reflexivity].
  destruct (PyStr.ltb a b) eqn:Hab.
  - rewrite (ltb_trans _ _ _ Hca Hab) in Hcb. discriminate.
  - rewrite (ltb_total _ _ Hab Hba) in Hca. congruence.
Qed.

End Text.

(** ** Sorting the extension pairs *)

Section Sorting.

Lemma insert_by_key_perm x l : Dict.insert_by_key x l ≡ₚ x :: l.
Proof.
  induction l as [|y r IH]; simpl; [reflexivity|].
  destruct (PyStr.ltb (fst y) (fst x)); [|reflexivity].
  rewrite IH. apply perm_swap.
Qed.

Lemma sorted_by_key_perm d : Dict.sorted_by_key d ≡ₚ d.
Proof.
  induction d as [|x d IH]; simpl; [reflexivity|].
  rewrite insert_by_key_perm. now rewrite IH.
Qed.

Lemma insert_by_key_sorted x l :
  StronglySorted key_le l -> StronglySorted key_le (Dict.insert_by_key x l).
Proof.
  induction 1 as [|y r Hr IH Hy]; simpl.
  - repeat constructor.
  - destruct (PyStr.ltb (fst y) (fst x)) eqn:Hyx.
    + constructor; [exact IH|].
      rewrite insert_by_key_perm. constructor; [|exact Hy].
      unfold key_le. now apply ltb_asym.
    + constructor; [now constructor|].
      constructor; [exact Hyx|].
      eapply Forall_impl; [exact Hy|].
      intros z Hz. unfold key_le in *. now apply (not_ltb_trans _ (fst y)).
Qed.

Lemma sorted_by_key_sorted d : StronglySorted key_le (Dict.sorted_by_key d).
Proof.
  induction d as [|x d IH]; simpl; [constructor|].
  now apply insert_by_key_sorted.
Qed.

(** In a dictionary the key determines the entry. *)
Lemma wf_entry_unique d x y :
  Dict.wf d -> x ∈ d -> y ∈ d -> fst x = fst y -> x = y.
Proof.
  unfold Dict.wf, Dict.keys. induction d as [|z d IH]; simpl.
  - intros _ Hx. inversion Hx.
  - rewrite NoDup_cons. intros [Hz Hd] Hx Hy E.
    apply elem_of_cons in Hx as [->|Hx]; apply elem_of_cons in Hy as [->|Hy];
      [reflexivity| | |now apply IH].
    + exfalso. apply Hz. rewrite E. apply list_elem_of_fmap. now exists y.
    + exfalso. apply Hz. rewrite <- E. apply list_elem_of_fmap. now exists x.
Qed.

Lemma sorted_by_key_unique d1 d2 :
  Dict.wf d1 -> d1 ≡ₚ d2 -> Dict.sorted_by_key d1 = Dict.sorted_by_key d2.
Proof.
  intros Hwf Hperm.
  apply (StronglySorted_unique_strong key_le);
    [|apply sorted_by_key_sorted..|].
  - intros x y Hx Hy Hxy Hyx.
    rewrite sorted_by_key_perm in Hx.
    rewrite sorted_by_key_perm, <- Hperm in Hy.
    apply (wf_entry_unique d1); auto.
    unfold key_le in *. now apply ltb_total.
  - now rewrite !sorted_by_key_perm.
Qed.

Lemma wf_get d : Dict.wf d ->
  forall k v, Dict.get k d = Some v <-> (k, v) ∈ d.
Proof.
  unfold Dict.wf, Dict.keys. induction d as [|[k' v'] d IH]; simpl; intros Hwf k v.
  - split; [discriminate | intros H; inversion H].
  - apply NoDup_cons in Hwf as [Hk' Hd]. rewrite elem_of_cons.
    destruct (String.eqb_spec k k') as [->|Hne].
    + split; [intros [= ->]; now left|].
      intros [[= ->]|Hin]; [reflexivity|].
      exfalso. apply Hk'. apply list_elem_of_fmap. now exists (k', v).
    + rewrite (IH Hd). split; [now right|].
      intros [[= -> ->]|Hin]; [contradiction | exact Hin].
Qed.

(** Two dictionaries with the same bindings hold the same entries,
    in some order. *)
Lemma same_bindings_perm d1 d2 :
  Dict.wf d1 -> Dict.wf d2 ->
  (forall k, Dict.get k d1 = Dict.get k d2) -> d1 ≡ₚ d2.
Proof.
  intros H1 H2 Hget. apply NoDup_Permutation.
  - eapply NoDup_fmap_1. exact H1.
  - eapply NoDup_fmap_1. exact H2.
  - intros [k v]. rewrite <- (wf_get d1 H1), <- (wf_get d2 H2). now rewrite Hget.
Qed.

Lemma format_shp_part_perm d1 d2 :
  Dict.wf d1 -> d1 ≡ₚ d2 -> _format_shp_part d1 = _format_shp_part d2.
Proof.
  intros Hwf Hperm. unfold _format_shp_part.
  rewrite (sorted_by_key_unique d1 d2 Hwf Hperm).
  destruct d1 as [|x1 d1], d2 as [|x2 d2]; simpl; try reflexivity.
  now apply Permutation_nil_cons in Hperm.
Qed.

End Sorting.

(** ** Canonical strings *)

Section Canonical.

Lemma or_empty_some d : or_empty (Some d) = d.
Proof. now destruct d. Qed.

Lemma join_cons sep a b l :
  PyStr.join sep (a :: b :: l) = (a ++ sep ++ PyStr.join sep (b :: l))%string.
Proof. reflexivity. Qed.

Lemma join_truthy a l :
  PyStr.truthy a = true -> PyStr.truthy (PyStr.join ":" (a :: l)) = true.
Proof. destruct a as [|c a]; [discriminate|]. now destruct l. Qed.

(** The conditional append of the sources is a join with the pairs. *)
Lemma with_shp_part base ext :
  (if PyStr.truthy (_format_shp_part ext)
   then base ++ ":" ++ _format_shp_part ext else base)%string
  = PyStr.join ":" (base :: map shp_item (Dict.sorted_by_key ext)).
Proof.
  unfold _format_shp_part. destruct ext as [|x ext]; [reflexivity|].
  assert (Hne : exists y l, Dict.sorted_by_key (x :: ext) = y :: l).
  { destruct (Dict.sorted_by_key (x :: ext)) as [|y l] eqn:E; [|eauto].
    pose proof (sorted_by_key_perm (x :: ext)) as Hp. rewrite E in Hp.
    now apply Permutation_nil_cons in Hp. }
  destruct Hne as (y & l & ->). cbn [Dict.truthy negb map].
  rewrite join_truthy by reflexivity. now rewrite join_cons.
Qed.

Lemma payment_signature_sign m p o i shp :
  payment_signature m p o i shp = sign [m; o; i] p (or_empty shp).
Proof.
  unfold payment_signature, sign, canonical_string, _md5_upper.
  rewrite with_shp_part. do 2 f_equal.
  cbn [app]. rewrite !join_cons.
  destruct (map shp_item (Dict.sorted_by_key (or_empty shp))) as [|y l];
    [reflexivity|].
  rewrite !join_cons, !append_assoc. reflexivity.
Qed.

Lemma verify_sign o i cand p shp :
  verify_signature_from_result o i cand p shp
  = String.eqb (sign [o; i] p (or_empty shp)) (PyStr.upper cand).
Proof.
  unfold verify_signature_from_result, sign, canonical_string, _md5_upper.
  rewrite with_shp_part. do 3 f_equal.
  cbn [app]. rewrite !join_cons.
  destruct (map shp_item (Dict.sorted_by_key (or_empty shp))) as [|y l];
    [reflexivity|].
  rewrite !join_cons, !append_assoc. reflexivity.
Qed.

Lemma sign_upper_fixed fields secret ext :
  PyStr.upper (sign fields secret ext) = sign fields secret ext.
Proof. apply upper_idem. Qed.

End Canonical.

(** ** Dictionaries and request parameters *)

Section Containers.

Lemma get_set_ne k k' v d :
  k <> k' -> Dict.get k (Dict.set k' v d) = Dict.get k d.
Proof.
  intros Hne. induction d as [|[k0 v0] d IH]; simpl.
  - destruct (String.eqb_spec k k'); [contradiction | reflexivity].
  - destruct (String.eqb_spec k' k0) as [->|Hk0]; simpl.
    + destruct (String.eqb_spec k k0); [contradiction | reflexivity].
    + now rewrite IH.
Qed.

(** Setting a key the dictionary does not hold appends the entry. *)
Lemma set_fresh k v d : k ∉ Dict.keys d -> Dict.set k v d = d ++ [(k, v)].
Proof.
  unfold Dict.keys. induction d as [|[k0 v0] d IH]; simpl; [reflexivity|].
  rewrite not_elem_of_cons. intros [Hne Hd].
  destruct (String.eqb_spec k k0); [contradiction|].
  now rewrite IH.
Qed.

Lemma fold_set_other (f : string -> string) k l : forall d,
  (forall kv, kv ∈ l -> f (fst kv) <> k) ->
  Dict.get k (fold_left (fun ps kv => Dict.set (f (fst kv)) (snd kv) ps) l d)
  = Dict.get k d.
Proof.
  induction l as [|x l IH]; intros d Hl; simpl; [reflexivity|].
  rewrite IH by (intros kv Hkv; apply Hl; now right).
  apply get_set_ne. intros ->. eapply Hl; [now left | reflexivity].
Qed.

(** Entries with pairwise distinct keys, none of them in the
    dictionary yet, are appended in order. *)
Lemma fold_set_fresh (f : string -> string) `{!Inj (=) (=) f} l : forall d,
  NoDup (map fst l) ->
  (forall kv, kv ∈ l -> f (fst kv) ∉ Dict.keys d) ->
  fold_left (fun ps kv => Dict.set (f (fst kv)) (snd kv) ps) l d
  = d ++ map (fun kv => (f (fst kv), snd kv)) l.
Proof.
  induction l as [|x l IH]; intros d Hnd Hfresh; simpl.
  - now rewrite app_nil_r.
  - apply NoDup_cons in Hnd as [Hx Hnd].
    rewrite set_fresh by (apply Hfresh; now left).
    rewrite IH; [now rewrite <- app_assoc | exact Hnd |].
    intros kv Hkv. unfold Dict.keys. rewrite map_app, elem_of_app.
    intros [Hin|Hin].
    + eapply Hfresh; [right; exact Hkv | exact Hin].
    + simpl in Hin. apply list_elem_of_singleton in Hin.
      apply (inj f) in Hin. apply Hx. rewrite <- Hin.
      apply list_elem_of_fmap. now exists kv.
Qed.

Lemma mem_false k seen : k ∉ seen -> MultiDict.mem k seen = false.
Proof.
  unfold MultiDict.mem. induction seen as [|x seen IH]; simpl; [reflexivity|].
  rewrite not_elem_of_cons. intros [Hne Hs].
  destruct (String.eqb_spec k x); [contradiction | now apply IH].
Qed.

(** Parameters that repeat no name are listed as submitted. *)
Lemma items_from_nodup md : forall seen,
  NoDup (map fst md) -> (forall k, k ∈ map fst md -> k ∉ seen) ->
  MultiDict.items_from seen md = md.
Proof.
  induction md as [|[k v] md IH]; intros seen Hnd Hseen; simpl; [reflexivity|].
  simpl in Hnd. apply NoDup_cons in Hnd as [Hk Hnd].
  rewrite mem_false by (apply Hseen; now left).
  f_equal. apply IH; [exact Hnd|].
  intros k' Hk'. rewrite not_elem_of_cons. split.
  - intros ->. contradiction.
  - apply Hseen. now right.
Qed.

Lemma items_nodup md : NoDup (map fst md) -> MultiDict.items md = md.
Proof.
  intros Hnd. apply items_from_nodup; [exact Hnd|].
  intros k _ Hk. inversion Hk.
Qed.

Lemma shp_prefix k :
  ("Shp_" ++ k)%string = String "S" (String "h" (String "p" (String "_" k))).
Proof. reflexivity. Qed.

Lemma shp_prefix_inj : Inj (=) (=) (String.append "Shp_").
Proof. intros a b. rewrite !shp_prefix. now intros [= ->]. Qed.

(** No extension parameter carries one of the fixed names. *)
Lemma shp_not_fixed k m o i sg desc test :
  ("Shp_" ++ k)%string ∉ Dict.keys (fixed_params m o i sg desc test).
Proof.
  rewrite shp_prefix. unfold fixed_params, Dict.keys.
  destruct desc as [[|c d]|], test; cbn;
    rewrite ?not_elem_of_cons; repeat split; try discriminate; apply not_elem_of_nil.
Qed.

Lemma fixed_params_nodup m o i sg desc test :
  NoDup (Dict.keys (fixed_params m o i sg desc test)).
Proof.
  unfold fixed_params, Dict.keys.
  destruct desc as [[|c d]|], test; cbn;
    repeat (apply NoDup_cons; split;
            [rewrite ?not_elem_of_cons; repeat split; try discriminate;
             apply not_elem_of_nil|]);
    apply NoDup_nil; exact I.
Qed.

Lemma keys_shp_param l :
  map fst (map shp_param l) = String.append "Shp_" <$> Dict.keys l.
Proof.
  unfold Dict.keys. induction l as [|x l IH]; [reflexivity|].
  cbn [map fmap list_fmap] in *. f_equal. exact IH.
Qed.

(** The shape of the query parameters when the caller layers nothing
    on top. *)
Lemma payment_params_shape m p o i desc shp test :
  Dict.wf (or_empty shp) ->
  payment_params m p o i desc shp test None
  = return_args m o i (payment_signature m p o i shp) desc test (or_empty shp).
Proof.
  intros Hwf. unfold payment_params.
  set (sg := payment_signature m p o i shp).
  assert (Hhead :
    (let params := [("MerchantLogin", m); ("OutSum", o); ("InvId", i);
                    ("SignatureValue", sg)] in
     let params := match desc with
                   | Some d => if PyStr.truthy d
                               then Dict.set "Description" d params else params
                   | None => params
                   end in
     if test then Dict.set "IsTest" "1" params else params)
    = fixed_params m o i sg desc test).
  { unfold fixed_params. destruct desc as [[|c d]|], test; reflexivity. }
  cbv zeta in Hhead |- *. rewrite Hhead. unfold return_args.
  apply (fold_set_fresh (String.append "Shp_") (Inj0 := shp_prefix_inj));
    [exact Hwf|].
  intros kv _. apply shp_not_fixed.
Qed.

End Containers.

(** ** Signatures *)

(** The payment URL of the design document's example, in full. *)
Example build_payment_url_demo :
  build_payment_url "robo-demo" "password1" "99.90" "1001" None None false None
  = "https://auth.robokassa.ru/Merchant/Index.aspx?MerchantLogin=robo-demo&OutSum=99.90&InvId=1001&SignatureValue=11E40777E857B33EC1E85BD17543942D".
Proof. vm_compute. reflexivity. Qed.

(** C3. [build_payment_url] signs the upper-case hexadecimal MD5 of
    [MerchantLogin:OutSum:InvId:Password1], followed, only when the
    extension map is non-empty, by the pairs [Shp_key=value] in ascending
    order of key.  For [robo-demo], [password1], [99.90], [1001] the
    signature is the upper-case MD5 of ["robo-demo:99.90:1001:password1"]
    without extensions and of
    ["robo-demo:99.90:1001:password1:Shp_user=42"] with [{user: "42"}]. *)
Theorem C3_payment_signature_formula :
  forall m p1 o i desc shp test,
    let ext := or_empty shp in
    Dict.get "SignatureValue" (payment_params m p1 o i desc shp test None)
    = Some (PyStr.upper (Md5.hexdigest (canonical_string [m; o; i] p1 ext)))
    /\ canonical_string [m; o; i] p1 [] = m +:+ ":" +:+ o +:+ ":" +:+ i +:+ ":" +:+ p1
    /\ StronglySorted key_le (Dict.sorted_by_key ext)
    /\ Dict.sorted_by_key ext ≡ₚ ext
    /\ Dict.get "SignatureValue"
         (payment_params "robo-demo" "password1" "99.90" "1001" desc None test None)
       = Some (PyStr.upper (Md5.hexdigest "robo-demo:99.90:1001:password1"))
    /\ Dict.get "SignatureValue"
         (payment_params "robo-demo" "password1" "99.90" "1001" desc
                         (Some [("user", "42")]) test None)
       = Some (PyStr.upper
                 (Md5.hexdigest "robo-demo:99.90:1001:password1:Shp_user=42"))
    /\ PyStr.upper (Md5.hexdigest "robo-demo:99.90:1001:password1")
       = "11E40777E857B33EC1E85BD17543942D"
    /\ PyStr.upper (Md5.hexdigest "robo-demo:99.90:1001:password1:Shp_user=42")
       = "4CD341C89B12F5BE931CC0D7C0C9CA0C"
    /\ build_payment_url "robo-demo" "password1" "99.90" "1001"
         None (Some [("user", "42")]) false None
       = "https://auth.robokassa.ru/Merchant/Index.aspx?MerchantLogin=robo-demo&OutSum=99.90&InvId=1001&SignatureValue=4CD341C89B12F5BE931CC0D7C0C9CA0C&Shp_user=42".
Proof.
  intros m p1 o i desc shp test ext.
  assert (Hsig : forall m p1 o i shp,
    Dict.get "SignatureValue" (payment_params m p1 o i desc shp test None)
    = Some (payment_signature m p1 o i shp)).
  { clear. intros m p1 o i shp. unfold payment_params. cbv zeta.
    rewrite (fold_set_other (String.append "Shp_")).
    - destruct desc as [[|c d]|], test; reflexivity.
    - intros kv _. rewrite shp_prefix. discriminate. }
  refine (conj _ (conj _ (conj _ (conj _ (conj _ (conj _ (conj _ (conj _ _)))))))).
  - rewrite Hsig, payment_signature_sign. reflexivity.
  - reflexivity.
  - apply sorted_by_key_sorted.
  - apply sorted_by_key_perm.
  - rewrite Hsig. reflexivity.
  - rewrite Hsig. reflexivity.
  - vm_compute. reflexivity.
  - vm_compute. reflexivity.
  - vm_compute. reflexivity.
Qed.



(** C5. The canonical extension string depends only on the bindings of
    the extension map, not on the order in which they were inserted:
    two maps with the same key/value pairs give the same string, the
    same payment signature and the same verification verdict. *)
Theorem C5_extension_order_independence :
  forall d1 d2 : Dict.t,
    Dict.wf d1 -> Dict.wf d2 ->
    (forall k, Dict.get k d1 = Dict.get k d2) ->
    _format_shp_part d1 = _format_shp_part d2
    /\ (forall m p1 o i,
          payment_signature m p1 o i (Some d1) = payment_signature m p1 o i (Some d2))
    /\ (forall o i cand p2,
          verify_signature_from_result o i cand p2 (Some d1)
          = verify_signature_from_result o i cand p2 (Some d2)).
Proof.
  intros d1 d2 H1 H2 Hget.
  pose proof (same_bindings_perm d1 d2 H1 H2 Hget) as Hperm.
  pose proof (sorted_by_key_unique d1 d2 H1 Hperm) as Hsort.
  split; [now apply format_shp_part_perm|]. split.
  - intros. rewrite !payment_signature_sign, !or_empty_some.
    unfold sign, canonical_string. now rewrite Hsort.
  - intros. rewrite !verify_sign, !or_empty_some.
    unfold sign, canonical_string. now rewrite Hsort.
Qed.

Lemma C5_extension_order_independence_witness :
  _format_shp_part [("user", "42"); ("a", "1")] = "Shp_a=1:Shp_user=42"
  /\ _format_shp_part [("user", "42"); ("a", "1")]
     = _format_shp_part [("a", "1"); ("user", "42")].
Proof.
  split; [reflexivity|].
  apply (C5_extension_order_independence
           [("user", "42"); ("a", "1")] [("a", "1"); ("user", "42")]).
  - apply (bool_decide_unpack _). vm_compute. exact I.
  - apply (bool_decide_unpack _). vm_compute. exact I.
  - intros k. simpl.
    destruct (String.eqb_spec k "user") as [->|]; [reflexivity|].
    destruct (String.eqb_spec k "a"); reflexivity.
Defined.

(** ** The redirect-return check on the Builder's own parameters *)

Section RoundTrip.

Lemma collect_prefixed l : forall d,
  fold_left
    (fun d kv =>
       if PyStr.startswith "Shp_" (fst kv)
       then Dict.set (PyStr.drop 4 (fst kv)) (snd kv) d else d)
    (map shp_param l) d
  = fold_left (fun ps kv => Dict.set (id (fst kv)) (snd kv) ps) l d.
Proof.
  induction l as [|x l IH]; intros d; [reflexivity|].
  cbn [map fold_left shp_param fst snd].
  rewrite startswith_append.
  change 4 with (String.length "Shp_"). rewrite drop_append.
  apply IH.
Qed.

Lemma map_pair_id (l : list (string * string)) :
  map (fun kv => (id (fst kv), snd kv)) l = l.
Proof. induction l as [|[k v] l IH]; simpl; [reflexivity | f_equal; exact IH]. Qed.

Lemma return_args_nodup m o i cand desc test ext :
  Dict.wf ext -> NoDup (map fst (return_args m o i cand desc test ext)).
Proof.
  intros Hwf. unfold return_args.
  rewrite map_app. apply NoDup_app. split; [apply fixed_params_nodup|]. split.
  - intros k Hk Hk'. apply list_elem_of_fmap in Hk' as [kv' [-> Hkv']].
    apply list_elem_of_fmap in Hkv' as [kv [-> Hkv]].
    revert Hk. apply shp_not_fixed.
  - rewrite keys_shp_param.
    apply (NoDup_fmap_2 _ (Inj0 := shp_prefix_inj)). exact Hwf.
Qed.

(** The extension pairs read back from the returned parameters are
    the ones that were sent. *)
Lemma collect_shp_return_args m o i cand desc test ext :
  Dict.wf ext -> collect_shp (return_args m o i cand desc test ext) = ext.
Proof.
  intros Hwf. unfold collect_shp.
  rewrite items_nodup by (now apply return_args_nodup).
  unfold return_args. rewrite fold_left_app.
  match goal with
  | |- fold_left ?g _ (fold_left ?g ?h []) = _ =>
      assert (Hhead : fold_left g h [] = [])
  end.
  { unfold fixed_params. destruct desc as [[|c d]|], test; reflexivity. }
  rewrite Hhead, collect_prefixed.
  rewrite (fold_set_fresh id) by (exact Hwf || (intros kv _ Hin; inversion Hin)).
  apply map_pair_id.
Qed.

Lemma get_return_args m o i cand desc test ext :
  let args := return_args m o i cand desc test ext in
  MultiDict.get_default "OutSum" "" args = o
  /\ MultiDict.get_default "InvId" "" args = i
  /\ MultiDict.get_default "SignatureValue" "" args = cand.
Proof. repeat split. Qed.

(** What [payment_success] answers to returned parameters carrying
    the candidate signature [cand]. *)
Lemma payment_success_return_args cfg o i cand desc test ext (ORDERS : store) :
  Dict.wf ext ->
  payment_success cfg
    (return_args (ROBOKASSA_MERCHANT_LOGIN cfg) o i cand desc test ext) ORDERS
  = if String.eqb (payment_signature (ROBOKASSA_MERCHANT_LOGIN cfg)
                     (ROBOKASSA_PASSWORD1 cfg) o i (Some ext))
                  (PyStr.upper cand)
    then (Response
            (SuccessPage i (match _get_order_data i ORDERS with
                            | inr order => Stored order
                            | inl _ => Unknown i o
                            end)) 200, ORDERS)
    else (Response (FailPage "Invalid signature" i) 400, ORDERS).
Proof.
  intros Hwf. unfold payment_success.
  destruct (get_return_args (ROBOKASSA_MERCHANT_LOGIN cfg) o i cand desc test ext)
    as (-> & -> & ->).
  rewrite collect_shp_return_args by exact Hwf.
  cbv zeta. unfold payment_signature. rewrite or_empty_some. cbv zeta.
  match goal with |- context [negb ?b] => destruct b end; reflexivity.
Qed.

(** The single-character replacements of an upper-case text that
    leave its upper-case form alone are those of letter case. *)
Lemma upper_set_char_eqb good pos c old :
  PyStr.upper good = good -> String.get pos good = Some old ->
  String.eqb good (PyStr.upper (set_char pos c good))
  = Ascii.eqb (PyStr.upper_char c) old.
Proof.
  intros Hup Hget. rewrite upper_set_char, Hup.
  destruct (Ascii.eqb_spec (PyStr.upper_char c) old) as [->|Hne].
  - apply String.eqb_eq. clear Hup. revert pos Hget.
    induction good as [|x g IH]; intros [|pos]; simpl; try discriminate.
    + now intros [= ->].
    + intros Hget. now rewrite <- IH.
  - apply String.eqb_neq. intros E. symmetry in E.
    exact (set_char_changes _ _ _ _ Hget Hne E).
Qed.

End RoundTrip.

(** C6. Round trip: the [OutSum], [InvId], [SignatureValue] and [Shp_*]
    query parameters that [build_payment_url] produces, handed to the
    redirect-return check of [payment_success] under the same merchant
    login and first secret key, pass it: the handler answers with the
    success page and not with the 400 of a bad signature. *)
Theorem C6_round_trip :
  forall cfg out_sum inv_id desc shp test (ORDERS : store),
    Dict.wf (or_empty shp) ->
    let args :=
      payment_params (ROBOKASSA_MERCHANT_LOGIN cfg) (ROBOKASSA_PASSWORD1 cfg)
                     out_sum inv_id desc shp test None in
    exists data,
      fst (payment_success cfg args ORDERS) = Response (SuccessPage inv_id data) 200.
Proof.
  intros cfg out_sum inv_id desc shp test ORDERS Hwf args. unfold args.
  rewrite payment_params_shape by exact Hwf.
  rewrite payment_success_return_args by exact Hwf.
  rewrite !payment_signature_sign, or_empty_some, sign_upper_fixed, String.eqb_refl.
  eexists. reflexivity.
Qed.

Lemma C6_round_trip_witness :
  exists data,
    fst (payment_success default_config
           (payment_params "robo-demo" "password1" "99.90" "1001"
                           (Some "Order 1001") (Some [("user", "42"); ("a", "1")])
                           true None) ∅)
    = Response (SuccessPage "1001" data) 200.
Proof.
  apply (C6_round_trip default_config "99.90" "1001" (Some "Order 1001")
           (Some [("user", "42"); ("a", "1")]) true ∅).
  apply (bool_decide_unpack _). vm_compute. exact I.
Defined.

(** C9, as the code has it.  Each of the two checks accepts the digest
    signed over its own canonical string with the same secret and
    extension map: [verify_signature_from_result] the digest over
    [OutSum:InvId:secret], the redirect-return check of
    [payment_success] the digest the Builder signs over
    [MerchantLogin:OutSum:InvId:secret].  Putting another character at
    one position of the digest is accepted when the upper-case form of
    the new character is the original one, that is for a change of
    letter case only, and is rejected in every other case. *)
Theorem C9_single_character_change :
  forall cfg out_sum inv_id secret ext desc test (ORDERS : store),
    Dict.wf ext ->
    let good := sign [out_sum; inv_id] secret ext in
    let built :=
      payment_signature (ROBOKASSA_MERCHANT_LOGIN cfg) (ROBOKASSA_PASSWORD1 cfg)
                        out_sum inv_id (Some ext) in
    let returned cand :=
      payment_success cfg
        (return_args (ROBOKASSA_MERCHANT_LOGIN cfg) out_sum inv_id cand desc test ext)
        ORDERS in
    verify_signature_from_result out_sum inv_id good secret (Some ext) = true
    /\ (forall pos c old,
          String.get pos good = Some old ->
          verify_signature_from_result
            out_sum inv_id (set_char pos c good) secret (Some ext)
          = Ascii.eqb (PyStr.upper_char c) old)
    /\ code (fst (returned built)) = 200
    /\ (forall pos c old,
          String.get pos built = Some old ->
          code (fst (returned (set_char pos c built)))
          = if Ascii.eqb (PyStr.upper_char c) old then 200 else 400).
Proof.
  intros cfg out_sum inv_id secret ext desc test ORDERS Hwf good built returned.
  assert (Hgood : PyStr.upper good = good) by apply sign_upper_fixed.
  assert (Hbuilt : PyStr.upper built = built) by apply md5_upper_fixed.
  refine (conj _ (conj _ (conj _ _))).
  - rewrite verify_sign, or_empty_some. fold good.
    rewrite Hgood. apply String.eqb_refl.
  - intros pos c old Hget. rewrite verify_sign, or_empty_some. fold good.
    now apply upper_set_char_eqb.
  - unfold returned. rewrite payment_success_return_args by exact Hwf.
    fold built. now rewrite Hbuilt, String.eqb_refl.
  - intros pos c old Hget.
    unfold returned. rewrite payment_success_return_args by exact Hwf.
    fold built. rewrite (upper_set_char_eqb built pos c old Hbuilt Hget).
    now destruct (Ascii.eqb (PyStr.upper_char c) old).
Qed.

Lemma C9_single_character_change_witness :
  sign ["99.90"; "1001"] "password2" [("user", "demo")]
  = "95E77E1B23AC16BAB610D25D0FDA8ED6"
  /\ verify_signature_from_result "99.90" "1001"
       (set_char 1 "6" (sign ["99.90"; "1001"] "password2" [("user", "demo")]))
       "password2" (Some [("user", "demo")]) = false
  /\ verify_signature_from_result "99.90" "1001"
       (set_char 2 "e" (sign ["99.90"; "1001"] "password2" [("user", "demo")]))
       "password2" (Some [("user", "demo")]) = true.
Proof.
  assert (Hwf : Dict.wf [("user", "demo")])
    by (apply (bool_decide_unpack _); vm_compute; exact I).
  pose proof (proj1 (proj2 (C9_single_character_change default_config
                              "99.90" "1001" "password2" [("user", "demo")]
                              None false ∅ Hwf))) as Hchange.
  refine (conj _ (conj _ _)).
  - vm_compute. reflexivity.
  - etransitivity; [apply (Hchange 1 "6"%char "5"%char); vm_compute; reflexivity
                   |reflexivity].
  - etransitivity; [apply (Hchange 2 "e"%char "E"%char); vm_compute; reflexivity
                   |reflexivity].
Defined.

(** C9 fails as stated, twice over.  The digest the Builder signs for
    the document's example covers the merchant identifier, so
    [verify_signature_from_result] rejects it under the same secret and
    extension map; and the correct callback digest with its first
    character [D] changed to the different character [d] is still
    accepted. *)
Lemma C9_counterexample :
  verify_signature_from_result "99.90" "1001"
    (payment_signature "robo-demo" "password1" "99.90" "1001" None)
    "password1" None = false
  /\ sign ["99.90"; "1001"] "password2" [] = "D9B3B7C056EB12CA8EED99D439FE3BF8"
  /\ set_char 0 "d" "D9B3B7C056EB12CA8EED99D439FE3BF8"
     = "d9B3B7C056EB12CA8EED99D439FE3BF8"
  /\ "d"%char <> "D"%char
  /\ verify_signature_from_result "99.90" "1001"
       "d9B3B7C056EB12CA8EED99D439FE3BF8" "password2" None = true.
Proof.
  refine (conj _ (conj _ (conj _ (conj _ _)))); try (vm_compute; reflexivity).
  discriminate.
Qed.

(** ** The order store *)

Section Store.

Lemma update_status_same order_id st data (ORDERS : store) :
  status_of order_id (_update_order_status order_id st data ORDERS) = Some st.
Proof.
  unfold status_of, _update_order_status.
  destruct (ORDERS !! order_id) as [o|]; rewrite lookup_insert_eq;
    [destruct data|]; reflexivity.
Qed.

Lemma update_status_other order_id other st data (ORDERS : store) :
  other <> order_id ->
  _update_order_status order_id st data ORDERS !! other = ORDERS !! other.
Proof.
  intros Hne. unfold _update_order_status.
  destruct (ORDERS !! order_id); now rewrite lookup_insert_ne.
Qed.

(** Filing the same gateway data under ['paid'] a second time changes
    nothing once the record exists. *)
Lemma update_paid_twice order_id data (ORDERS : store) :
  is_Some (ORDERS !! order_id) ->
  _update_order_status order_id "paid" (Some data)
    (_update_order_status order_id "paid" (Some data) ORDERS)
  = _update_order_status order_id "paid" (Some data) ORDERS.
Proof.
  intros [o Ho]. unfold _update_order_status. rewrite Ho.
  rewrite lookup_insert_eq. cbv zeta. now rewrite insert_insert_eq.
Qed.

Lemma update_is_some order_id st data (ORDERS : store) :
  is_Some (_update_order_status order_id st data ORDERS !! order_id).
Proof.
  unfold _update_order_status.
  destruct (ORDERS !! order_id); rewrite lookup_insert_eq; eauto.
Qed.

(** The three outcomes of [payment_result]. *)
Lemma payment_result_cases cfg form (ORDERS : store) :
  let out_sum := MultiDict.get_default "OutSum" "" form in
  let signature := MultiDict.get_default "SignatureValue" "" form in
  let shp := collect_shp form in
  match nonempty (MultiDict.get "InvId" form) with
  | None => payment_result cfg form ORDERS = (Response (Text "InvId missing") 400, ORDERS)
  | Some inv_id =>
      if verify_signature_from_result
           out_sum inv_id signature (ROBOKASSA_PASSWORD2 cfg) (Some shp)
      then payment_result cfg form ORDERS
           = (Response (Text ("OK" +:+ inv_id)) 200,
              _update_order_status inv_id "paid"
                (Some {| Order.OutSum := out_sum; Order.shp_echo := shp |}) ORDERS)
      else payment_result cfg form ORDERS
           = (Response (Text "Invalid signature") 400, ORDERS)
  end.
Proof.
  unfold payment_result.
  destruct (nonempty (MultiDict.get "InvId" form)) as [inv_id|]; [|reflexivity].
  cbv zeta.
  destruct (verify_signature_from_result _ inv_id _ _ _); reflexivity.
Qed.

Lemma payment_success_store cfg args (ORDERS : store) :
  snd (payment_success cfg args ORDERS) = ORDERS.
Proof.
  unfold payment_success. cbv zeta.
  match goal with |- context [negb ?b] => destruct b end; reflexivity.
Qed.

(** The outcomes of [create_payment]: either the store is untouched
    and the answer is not a redirect, or a URL is issued for an order
    that passed validation and is now ['pending']. *)
Lemma create_payment_cases cfg form (ORDERS : store) :
  (snd (create_payment cfg form ORDERS) = ORDERS
   /\ code (fst (create_payment cfg form ORDERS)) <> 302)
  \/ (exists order_id order a,
        nonempty (MultiDict.get "order_id" form) = Some order_id
        /\ ORDERS !! order_id = Some order
        /\ Order.amount order = Some a
        /\ _validate_order_parameters order_id a (Order.description order) = inr tt
        /\ code (fst (create_payment cfg form ORDERS)) = 302
        /\ snd (create_payment cfg form ORDERS)
           = _update_order_status order_id "pending" None ORDERS).
Proof.
  unfold create_payment, _get_order_data.
  destruct (nonempty (MultiDict.get "order_id" form)) as [order_id|];
    [|left; split; [reflexivity | discriminate]].
  destruct (ORDERS !! order_id) as [order|] eqn:Hord;
    [|left; split; [reflexivity | discriminate]].
  destruct (Order.amount order) as [a|] eqn:Ha;
    [|left; split; [reflexivity | discriminate]].
  destruct (_validate_order_parameters order_id a (Order.description order))
    as [[msg|msg| |]|[]] eqn:Hval;
    try (left; split; [reflexivity | discriminate]).
  right. exists order_id, order, a. repeat split; auto.
Qed.

(** Validation passes exactly for a positive amount with a non-empty
    description. *)
Lemma validate_ok order_id a desc :
  _validate_order_parameters order_id a desc = inr tt
  <-> positive a /\ exists d, desc = Some d /\ d <> "".
Proof.
  unfold _validate_order_parameters, positive.
  destruct (Decimal.le_zero a) as [[|]|]; try (split; [discriminate | intros [? _]; discriminate]).
  destruct desc as [[|c d]|].
  - split; [discriminate | intros [_ (d & [= <-] & Hd)]; contradiction].
  - split; [intros _; split; [reflexivity | eexists; split; [reflexivity | discriminate]] | reflexivity].
  - split; [discriminate | intros [_ (d & Hd & _)]; discriminate].
Qed.

(** Every route but the callback leaves an order ['paid'] only if it
    was. *)
Lemma not_callback_not_paying cfg req (ORDERS : store) order_id :
  (forall form, req <> PostPaymentResult form) ->
  status_of order_id (snd (handle cfg req ORDERS)) = Some "paid" ->
  status_of order_id ORDERS = Some "paid".
Proof.
  intros Hreq. destruct req as [|form|form|args|args|form]; simpl.
  - auto.
  - unfold create_order.
    destruct (Decimal.of_string _); [|auto]. cbv zeta. simpl.
    match goal with |- context [<[?k := _]> _] => set (key := k) end.
    unfold status_of. destruct (decide (order_id = key)) as [->|Hne].
    + rewrite lookup_insert_eq. discriminate.
    + now rewrite lookup_insert_ne by congruence.
  - destruct (create_payment_cases cfg form ORDERS)
      as [[-> _]|(oid & order & a & _ & _ & _ & _ & _ & ->)]; [auto|].
    destruct (decide (order_id = oid)) as [->|Hne].
    + rewrite update_status_same. discriminate.
    + unfold status_of. now rewrite update_status_other.
  - now rewrite payment_success_store.
  - auto.
  - now destruct (Hreq form).
Qed.


End Store.

(** ** The order lifecycle *)

(** C1. Only the callback route sets an order ['paid'], and only after
    the signature verified: when [verify_signature_from_result] returns
    false, [payment_result] leaves the store as it was; through any
    other route no order becomes ['paid']; and an order that turns
    ['paid'] did so through a callback naming it whose signature
    verified. *)
Theorem C1_paid_only_after_verified_callback :
  forall cfg (ORDERS : store),
    (forall form inv_id,
        nonempty (MultiDict.get "InvId" form) = Some inv_id ->
        verify_signature_from_result
          (MultiDict.get_default "OutSum" "" form) inv_id
          (MultiDict.get_default "SignatureValue" "" form)
          (ROBOKASSA_PASSWORD2 cfg) (Some (collect_shp form)) = false ->
        snd (payment_result cfg form ORDERS) = ORDERS)
    /\ (forall req order_id,
          (forall form, req <> PostPaymentResult form) ->
          status_of order_id (snd (handle cfg req ORDERS)) = Some "paid" ->
          status_of order_id ORDERS = Some "paid")
    /\ (forall req order_id,
          status_of order_id (snd (handle cfg req ORDERS)) = Some "paid" ->
          status_of order_id ORDERS <> Some "paid" ->
          exists form,
            req = PostPaymentResult form
            /\ nonempty (MultiDict.get "InvId" form) = Some order_id
            /\ verify_signature_from_result
                 (MultiDict.get_default "OutSum" "" form) order_id
                 (MultiDict.get_default "SignatureValue" "" form)
                 (ROBOKASSA_PASSWORD2 cfg) (Some (collect_shp form)) = true).
Proof.
  intros cfg ORDERS. refine (conj _ (conj _ _)).
  - intros form inv_id Hid Hbad.
    pose proof (payment_result_cases cfg form ORDERS) as Hc. cbv zeta in Hc.
    rewrite Hid, Hbad in Hc. now rewrite Hc.
  - intros req order_id. apply not_callback_not_paying.
  - intros req order_id Hafter Hbefore.
    destruct req as [|f|f|a|a|form];
      try (exfalso; apply Hbefore;
           match type of Hafter with
           | status_of _ (snd (handle _ ?r _)) = _ =>
               apply (not_callback_not_paying cfg r ORDERS order_id);
               [discriminate | exact Hafter]
           end).
    exists form. split; [reflexivity|]. simpl in Hafter.
    pose proof (payment_result_cases cfg form ORDERS) as Hc. cbv zeta in Hc.
    destruct (nonempty (MultiDict.get "InvId" form)) as [inv_id|];
      [|rewrite Hc in Hafter; contradiction].
    destruct (verify_signature_from_result _ inv_id _ _ _) eqn:Hv;
      rewrite Hc in Hafter; [|contradiction].
    simpl in Hafter. destruct (decide (order_id = inv_id)) as [->|Hne].
    + split; [reflexivity | exact Hv].
    + exfalso. apply Hbefore. unfold status_of in *.
      now rewrite update_status_other in Hafter.
Qed.

Lemma C1_paid_only_after_verified_callback_witness :
  snd (payment_result default_config
         [("OutSum", "99.90"); ("InvId", "1001");
          ("SignatureValue", "00000000000000000000000000000000")]
         (run default_config demo_trace ∅))
  = run default_config demo_trace ∅.
Proof.
  apply (proj1 (C1_paid_only_after_verified_callback default_config
                  (run default_config demo_trace ∅))
           [("OutSum", "99.90"); ("InvId", "1001");
            ("SignatureValue", "00000000000000000000000000000000")] "1001").
  - reflexivity.
  - vm_compute. reflexivity.
Defined.

(** C2. The redirect-return handler never changes an order's status:
    whatever the request, signed well or badly, for a known or an
    unknown order id, the store after [payment_success] is the store
    before it. *)
Theorem C2_redirect_return_keeps_store :
  forall cfg args (ORDERS : store),
    snd (payment_success cfg args ORDERS) = ORDERS
    /\ (forall order_id,
          status_of order_id (snd (payment_success cfg args ORDERS))
          = status_of order_id ORDERS).
Proof.
  intros cfg args ORDERS. split; [apply payment_success_store|].
  intros order_id. now rewrite payment_success_store.
Qed.




(** C8, as the code has it.  A correctly signed callback is answered
    [OK<InvId>] every time it is delivered and leaves its order
    ['paid'] after one delivery and after two; no other order is
    touched.  When the store already held the order at the first
    delivery, the second delivery leaves the store exactly as the first
    one did; and in every case a third delivery leaves the store as the
    second one did. *)
Theorem C8_callback_redelivery :
  forall cfg form (ORDERS : store) inv_id,
    nonempty (MultiDict.get "InvId" form) = Some inv_id ->
    verify_signature_from_result
      (MultiDict.get_default "OutSum" "" form) inv_id
      (MultiDict.get_default "SignatureValue" "" form)
      (ROBOKASSA_PASSWORD2 cfg) (Some (collect_shp form)) = true ->
    let once := payment_result cfg form ORDERS in
    let twice := payment_result cfg form (snd once) in
    let thrice := payment_result cfg form (snd twice) in
    fst once = Response (Text ("OK" +:+ inv_id)) 200
    /\ fst twice = fst once
    /\ status_of inv_id (snd once) = Some "paid"
    /\ status_of inv_id (snd twice) = Some "paid"
    /\ (forall other, other <> inv_id -> snd twice !! other = ORDERS !! other)
    /\ (is_Some (ORDERS !! inv_id) -> snd twice = snd once)
    /\ snd thrice = snd twice.
Proof.
  intros cfg form ORDERS inv_id Hid Hok once twice thrice.
  assert (Hstep : forall S : store,
    payment_result cfg form S
    = (Response (Text ("OK" +:+ inv_id)) 200,
       _update_order_status inv_id "paid"
         (Some {| Order.OutSum := MultiDict.get_default "OutSum" "" form;
                  Order.shp_echo := collect_shp form |}) S)).
  { intros S. pose proof (payment_result_cases cfg form S) as Hc. cbv zeta in Hc.
    now rewrite Hid, Hok in Hc. }
  unfold thrice, twice, once. rewrite !Hstep. cbn [fst snd].
  refine (conj _ (conj _ (conj _ (conj _ (conj _ (conj _ _)))))).
  - reflexivity.
  - reflexivity.
  - apply update_status_same.
  - apply update_status_same.
  - intros other Hne. now rewrite !update_status_other.
  - apply update_paid_twice.
  - apply update_paid_twice, update_is_some.
Qed.

Lemma C8_callback_redelivery_witness :
  status_of "1001"
    (snd (payment_result default_config callback_1001
            (snd (payment_result default_config callback_1001 ∅))))
  = Some "paid".
Proof.
  refine (proj1 (proj2 (proj2 (proj2
           (C8_callback_redelivery default_config callback_1001 ∅ "1001" _ _))))).
  - reflexivity.
  - vm_compute. reflexivity.
Defined.

(** C8 fails as stated: for an id the store does not know, the first
    delivery of a correctly signed callback files a bare record without
    the gateway data and the second delivery adds them, so the record
    after two deliveries is not the record after one. *)
Lemma C8_counterexample :
  let once := snd (payment_result default_config callback_1001 ∅) in
  let twice := snd (payment_result default_config callback_1001 once) in
  fst (payment_result default_config callback_1001 ∅) = Response (Text "OK1001") 200
  /\ Order.robokassa <$> once !! "1001" = Some None
  /\ Order.robokassa <$> twice !! "1001"
     = Some (Some {| Order.OutSum := "99.90"; Order.shp_echo := [("user", "demo")] |})
  /\ twice <> once.
Proof.
  cbv zeta. refine (conj _ (conj _ (conj _ _))); try (vm_compute; reflexivity).
  intros E. apply (f_equal (fun s : store => Order.robokassa <$> s !! "1001")) in E.
  vm_compute in E. discriminate E.
Qed.




(** * Further properties of the code *)

(** ** The shape of a digest *)

Section DigestShape.

Lemma all_chars_app p a b :
  all_chars p (a +:+ b) = all_chars p a && all_chars p b.
Proof.
  induction a as [|c a IH]; [reflexivity|].
  rewrite append_cons. simpl. now rewrite IH, andb_assoc.
Qed.

Lemma all_chars_impl (p q : ascii -> bool) s :
  (forall c, p c = true -> q c = true) ->
  all_chars p s = true -> all_chars q s = true.
Proof.
  intros Hpq. induction s as [|c s IH]; simpl; [reflexivity|].
  rewrite !andb_true_iff. intros [Hc Hs]. auto.
Qed.

Lemma upper_length s : String.length (PyStr.upper s) = String.length s.
Proof. induction s as [|c s IH]; simpl; [reflexivity | now rewrite IH]. Qed.

(** A property of bytes checked on all 256 of them. *)
Lemma byte_cases (P : Z -> bool) :
  forallb (fun k => P (Z.of_nat k)) (seq 0 256) = true ->
  forall b, (0 <= b < 256)%Z -> P b = true.
Proof.
  intros Hall b Hb. rewrite forallb_forall in Hall.
  rewrite <- (Z2Nat.id b) by lia. apply Hall.
  apply in_seq. lia.
Qed.

Lemma le_bytes_range n : forall x,
  Forall (fun b => (0 <= b < 256)%Z) (Md5.le_bytes n x).
Proof.
  induction n as [|n IH]; intros x; simpl; constructor; [|apply IH].
  change 255%Z with (Z.ones 8). rewrite Z.land_ones by lia.
  apply Z.mod_pos_bound. lia.
Qed.

Lemma digest_bytes msg :
  length (Md5.digest msg) = 16
  /\ Forall (fun b => (0 <= b < 256)%Z) (Md5.digest msg).
Proof.
  unfold Md5.digest. cbv zeta. split.
  - reflexivity.
  - rewrite !Forall_app. repeat split; apply le_bytes_range.
Qed.

Lemma hex_length bs : String.length (Md5.hex bs) = 2 * length bs.
Proof. induction bs as [|b bs IH]; simpl; [reflexivity | rewrite IH; lia]. Qed.

Lemma hex_upper_chars bs :
  Forall (fun b => (0 <= b < 256)%Z) bs ->
  all_chars is_upper_hex (PyStr.upper (Md5.hex bs)) = true.
Proof.
  induction 1 as [|b bs Hb _ IH]; [reflexivity|].
  cbn [Md5.hex PyStr.upper all_chars]. rewrite IH, andb_true_r.
  revert b Hb.
  apply (byte_cases (fun b =>
    is_upper_hex (PyStr.upper_char (Md5.hex_digit (Z.shiftr b 4)))
    && is_upper_hex (PyStr.upper_char (Md5.hex_digit (Z.land b 15))))).
  vm_compute. reflexivity.
Qed.

Lemma md5_upper_length s : String.length (_md5_upper s) = 32.
Proof.
  unfold _md5_upper, Md5.hexdigest.
  rewrite upper_length, hex_length.
  now destruct (digest_bytes (Md5.encode s)) as [-> _].
Qed.



Lemma md5_upper_chars s : all_chars is_upper_hex (_md5_upper s) = true.
Proof.
  unfold _md5_upper, Md5.hexdigest. apply hex_upper_chars. apply digest_bytes.
Qed.

End DigestShape.

(** X1. [_md5_upper] always returns 32 characters, each a digit or one
    of the capitals [A] to [F]. *)
Theorem X1_md5_upper_shape :
  forall s,
    String.length (_md5_upper s) = 32
    /\ all_chars is_upper_hex (_md5_upper s) = true.
Proof.
  intros s. split; [apply md5_upper_length | apply md5_upper_chars].
Qed.






(** ** What a signature does not tell apart *)

(** X4. The signed text is the bare colon-joined string, so a colon
    inside a field moves the field boundary unnoticed: the amount
    [o:x] with order id [i] and the amount [o] with order id [x:i]
    have the same Builder signature and are verified alike by
    [verify_signature_from_result]. *)
Theorem X4_field_boundary_not_signed :
  forall m p o x i cand shp,
    payment_signature m p (o +:+ ":" +:+ x) i shp
    = payment_signature m p o (x +:+ ":" +:+ i) shp
    /\ verify_signature_from_result (o +:+ ":" +:+ x) i cand p shp
       = verify_signature_from_result o (x +:+ ":" +:+ i) cand p shp.
Proof.
  intros m p o x i cand shp.
  unfold payment_signature, verify_signature_from_result. cbv zeta.
  assert (E1 : m +:+ ":" +:+ (o +:+ ":" +:+ x) +:+ ":" +:+ i +:+ ":" +:+ p
               = m +:+ ":" +:+ o +:+ ":" +:+ (x +:+ ":" +:+ i) +:+ ":" +:+ p)
    by (now rewrite !append_assoc).
  assert (E2 : (o +:+ ":" +:+ x) +:+ ":" +:+ i +:+ ":" +:+ p
               = o +:+ ":" +:+ (x +:+ ":" +:+ i) +:+ ":" +:+ p)
    by (now rewrite !append_assoc).
  split; [now rewrite E1 | now rewrite E2].
Qed.

(** X5. Nor does the signed text keep the extension pairs apart: for
    keys [k] and [k2] in that order, the single pair whose value is
    [v:Shp_k2=v2] and the two pairs [k = v], [k2 = v2] give the same
    extension string, the same Builder signature and the same
    verification verdict. *)
Theorem X5_extension_boundary_not_signed :
  forall k v k2 v2,
    PyStr.ltb k2 k = false ->
    let merged := [(k, v +:+ ":Shp_" +:+ k2 +:+ "=" +:+ v2)] in
    let apart := [(k, v); (k2, v2)] in
    _format_shp_part merged = _format_shp_part apart
    /\ (forall m p o i,
          payment_signature m p o i (Some merged)
          = payment_signature m p o i (Some apart))
    /\ (forall o i cand p,
          verify_signature_from_result o i cand p (Some merged)
          = verify_signature_from_result o i cand p (Some apart)).
Proof.
  intros k v k2 v2 Hk merged apart.
  assert (E : _format_shp_part merged = _format_shp_part apart).
  { unfold _format_shp_part, merged, apart. cbn [Dict.truthy negb].
    cbn [Dict.sorted_by_key fold_right Dict.insert_by_key fst].
    rewrite Hk. cbn [map PyStr.join]. unfold shp_item. cbn [fst snd].
    rewrite !append_assoc. reflexivity. }
  split; [exact E|]. split.
  - intros. unfold payment_signature. rewrite !or_empty_some. cbv zeta.
    now rewrite E.
  - intros. unfold verify_signature_from_result. rewrite !or_empty_some. cbv zeta.
    now rewrite E.
Qed.

Lemma X5_extension_boundary_not_signed_witness :
  _format_shp_part [("a", "1:Shp_b=2")] = _format_shp_part [("a", "1"); ("b", "2")].
Proof.
  apply (X5_extension_boundary_not_signed "a" "1" "b" "2"). reflexivity.
Defined.

(** ** The parameters of the payment URL *)

Section Params.

Lemma get_set_eq k v d : Dict.get k (Dict.set k v d) = Some v.
Proof.
  induction d as [|[k0 v0] d IH]; simpl.
  - now rewrite String.eqb_refl.
  - destruct (String.eqb_spec k k0) as [->|Hk0]; simpl.
    + now rewrite String.eqb_refl.
    + destruct (String.eqb_spec k k0); [contradiction | exact IH].
Qed.

Lemma get_set k k' v d :
  Dict.get k (Dict.set k' v d) = if String.eqb k k' then Some v else Dict.get k d.
Proof.
  destruct (String.eqb_spec k k') as [->|Hne];
    [apply get_set_eq | now apply get_set_ne].
Qed.

Lemma keys_set k v d :
  Dict.keys (Dict.set k v d)
  = if bool_decide (k ∈ Dict.keys d) then Dict.keys d else Dict.keys d ++ [k].
Proof.
  unfold Dict.keys. induction d as [|[k0 v0] d IH]; [reflexivity|].
  simpl. destruct (String.eqb_spec k k0) as [->|Hne].
  - rewrite bool_decide_eq_true_2 by (now left). reflexivity.
  - simpl. rewrite IH. destruct (bool_decide_reflect (k ∈ map fst d)) as [Hin|Hout].
    + rewrite bool_decide_eq_true_2 by (now right). reflexivity.
    + rewrite bool_decide_eq_false_2; [reflexivity|].
      rewrite not_elem_of_cons. now split.
Qed.

(** Assignment keeps the keys of a dictionary distinct. *)
Lemma set_wf k v d : Dict.wf d -> Dict.wf (Dict.set k v d).
Proof.
  unfold Dict.wf. intros Hwf. rewrite keys_set.
  destruct (bool_decide_reflect (k ∈ Dict.keys d)) as [Hin|Hout]; [exact Hwf|].
  apply NoDup_app. split; [exact Hwf|]. split.
  - intros x Hx Hx'. apply list_elem_of_singleton in Hx'. now subst.
  - apply NoDup_singleton.
Qed.

Lemma fold_set_wf (f : string -> string) l : forall d,
  Dict.wf d ->
  Dict.wf (fold_left (fun ps kv => Dict.set (f (fst kv)) (snd kv) ps) l d).
Proof.
  induction l as [|x l IH]; intros d Hwf; simpl; [exact Hwf|].
  apply IH. now apply set_wf.
Qed.

Lemma update_wf e : forall d, Dict.wf d -> Dict.wf (Dict.update d e).
Proof. intros d. apply (fold_set_wf (fun k => k)). Qed.

(** [d.update(e)] reads as [e] where [e] has the key, as [d] elsewhere. *)
Lemma get_update k e : forall d,
  Dict.wf e ->
  Dict.get k (Dict.update d e)
  = match Dict.get k e with Some v => Some v | None => Dict.get k d end.
Proof.
  unfold Dict.update, Dict.wf, Dict.keys.
  induction e as [|[k1 v1] e IH]; intros d Hwf; [reflexivity|].
  simpl in Hwf. apply NoDup_cons in Hwf as [Hk1 Hwf].
  cbn [fold_left fst snd Dict.get]. rewrite IH by exact Hwf.
  rewrite get_set. destruct (String.eqb_spec k k1) as [->|Hne]; [|reflexivity].
  destruct (Dict.get k1 e) as [v|] eqn:Hget; [|reflexivity].
  exfalso. apply Hk1. apply list_elem_of_fmap. exists (k1, v). split; [reflexivity|].
  apply (wf_get e Hwf). exact Hget.
Qed.

Lemma get_app k (a b : Dict.t) :
  Dict.get k (a ++ b)
  = match Dict.get k a with Some v => Some v | None => Dict.get k b end.
Proof.
  induction a as [|[k0 v0] a IH]; simpl; [reflexivity|].
  now destruct (String.eqb k k0).
Qed.

Lemma startswith_split p : forall s,
  PyStr.startswith p s = true -> s = p +:+ PyStr.drop (String.length p) s.
Proof.
  induction p as [|a p IH]; intros [|b s]; simpl; try discriminate; try reflexivity.
  rewrite andb_true_iff, Ascii.eqb_eq. intros [-> Hp].
  rewrite append_cons. f_equal. now apply IH.
Qed.

Lemma eqb_shp_prefix name k :
  String.eqb name ("Shp_" +:+ k)
  = PyStr.startswith "Shp_" name && String.eqb (PyStr.drop 4 name) k.
Proof.
  destruct (PyStr.startswith "Shp_" name) eqn:Hs; cbn [andb].
  - apply startswith_split in Hs. change (String.length "Shp_") with 4 in Hs.
    rewrite Hs at 1. rewrite !shp_prefix. cbn [String.eqb].
    rewrite !Ascii.eqb_refl. reflexivity.
  - apply String.eqb_neq. intros ->. now rewrite startswith_append in Hs.
Qed.

Lemma get_shp_params name ext :
  Dict.get name (map shp_param ext)
  = if PyStr.startswith "Shp_" name then Dict.get (PyStr.drop 4 name) ext else None.
Proof.
  induction ext as [|[k v] ext IH]; cbn [map shp_param fst snd Dict.get].
  - now destruct (PyStr.startswith "Shp_" name).
  - rewrite eqb_shp_prefix, IH.
    now destruct (PyStr.startswith "Shp_" name), (String.eqb (PyStr.drop 4 name) k).
Qed.

Lemma get_fixed_other name m o i sg desc test :
  name ∉ fixed_names -> Dict.get name (fixed_params m o i sg desc test) = None.
Proof.
  unfold fixed_names. rewrite !not_elem_of_cons.
  intros (H1 & H2 & H3 & H4 & H5 & H6 & _).
  unfold fixed_params.
  destruct desc as [[|c d]|], test; cbn [app Dict.get PyStr.truthy];
    repeat match goal with
           | |- context [String.eqb name ?k] =>
               destruct (String.eqb_spec name k); [contradiction|]
           end; reflexivity.
Qed.

(** The head of [params] as the code builds it, before the extension
    pairs. *)
Lemma params_head (m o i sg : string) (desc : option string) (test : bool) :
  (let params := [("MerchantLogin", m); ("OutSum", o); ("InvId", i);
                  ("SignatureValue", sg)] in
   let params := match desc with
                 | Some d => if PyStr.truthy d
                             then Dict.set "Description" d params else params
                 | None => params
                 end in
   if test then Dict.set "IsTest" "1" params else params)
  = fixed_params m o i sg desc test.
Proof. unfold fixed_params. destruct desc as [[|c d]|], test; reflexivity. Qed.

End Params.

(** X6. Parameters the caller passes in [extra_params] are layered on
    top: a name they hold reads as the caller's value in the final
    parameters, the computed signature included, and every other name
    reads as it would without them. *)
Theorem X6_extra_params_override :
  forall m p o i desc shp test extra name,
    Dict.wf extra ->
    Dict.get name (payment_params m p o i desc shp test (Some extra))
    = match Dict.get name extra with
      | Some v => Some v
      | None => Dict.get name (payment_params m p o i desc shp test None)
      end.
Proof.
  intros m p o i desc shp test extra name Hwf.
  unfold payment_params. cbv zeta.
  destruct extra as [|kv extra]; [reflexivity|].
  cbn [Dict.truthy]. now apply get_update.
Qed.

Lemma X6_extra_params_override_witness :
  Dict.get "SignatureValue"
    (payment_params "robo-demo" "password1" "99.90" "1001" None None false
                    (Some [("Culture", "ru"); ("SignatureValue", "00")]))
  = Some "00".
Proof.
  apply (X6_extra_params_override "robo-demo" "password1" "99.90" "1001" None None
           false [("Culture", "ru"); ("SignatureValue", "00")] "SignatureValue").
  apply (bool_decide_unpack _). vm_compute. exact I.
Defined.

(** X7. Whatever it is given, [build_payment_url] encodes a dictionary
    that names no parameter twice and always holds [MerchantLogin],
    [OutSum], [InvId] and [SignatureValue]. *)
Theorem X7_params_are_a_dictionary :
  forall m p o i desc shp test extra,
    let params := payment_params m p o i desc shp test extra in
    Dict.wf params
    /\ Forall (fun name => is_Some (Dict.get name params))
         ["MerchantLogin"; "OutSum"; "InvId"; "SignatureValue"].
Proof.
  intros m p o i desc shp test extra params.
  assert (Hwf : Dict.wf params).
  { unfold params, payment_params. cbv zeta.
    assert (Hbase : Dict.wf
      (fold_left (fun ps kv => Dict.set ("Shp_" +:+ fst kv) (snd kv) ps)
         (or_empty shp)
         (fixed_params m o i (payment_signature m p o i shp) desc test))).
    { apply (fold_set_wf (String.append "Shp_")). apply fixed_params_nodup. }
    rewrite <- params_head in Hbase. cbv zeta in Hbase.
    destruct extra as [[|kv e]|]; try exact Hbase.
    cbn [Dict.truthy]. now apply update_wf. }
  split; [exact Hwf|].
  assert (Hkeep : forall name,
    name ∈ ["MerchantLogin"; "OutSum"; "InvId"; "SignatureValue"] ->
    is_Some (Dict.get name params)).
  { intros name Hname. unfold params, payment_params. cbv zeta.
    rewrite params_head.
    set (sg := payment_signature m p o i shp).
    assert (Hfixed : is_Some (Dict.get name (fixed_params m o i sg desc test))).
    { unfold fixed_params.
      repeat (apply elem_of_cons in Hname as [->|Hname]);
        [| | | |now apply elem_of_nil in Hname]; cbn; eauto. }
    assert (Hfold : forall (f : string -> string) l d,
      is_Some (Dict.get name d) ->
      is_Some (Dict.get name
                 (fold_left (fun ps kv => Dict.set (f (fst kv)) (snd kv) ps) l d))).
    { intros f l. induction l as [|x l IH]; intros d Hd; [exact Hd|].
      simpl. apply IH. rewrite get_set. destruct (String.eqb name (f (fst x))); eauto. }
    pose proof (Hfold (String.append "Shp_") (or_empty shp) _ Hfixed) as Hshp.
    destruct extra as [[|kv e]|]; try exact Hshp.
    cbn [Dict.truthy]. apply (Hfold (fun k => k)). exact Hshp. }
  repeat (constructor; [apply Hkeep; set_solver|]). constructor.
Qed.

(** X8. Without [extra_params] the parameters are exactly these: the
    merchant login, the amount and the order id as given; the
    description only when it is non-empty; [IsTest=1] only in test
    mode; every extension pair [k = v] under the name [Shp_k]; and
    nothing under any other name. *)
Theorem X8_params_content :
  forall m p o i desc shp test,
    Dict.wf (or_empty shp) ->
    let params := payment_params m p o i desc shp test None in
    Dict.get "MerchantLogin" params = Some m
    /\ Dict.get "OutSum" params = Some o
    /\ Dict.get "InvId" params = Some i
    /\ Dict.get "Description" params
       = match desc with
         | Some d => if PyStr.truthy d then Some d else None
         | None => None
         end
    /\ Dict.get "IsTest" params = (if test then Some "1" else None)
    /\ (forall k, Dict.get ("Shp_" +:+ k) params = Dict.get k (or_empty shp))
    /\ (forall name,
          name ∉ fixed_names -> PyStr.startswith "Shp_" name = false ->
          Dict.get name params = None).
Proof.
  intros m p o i desc shp test Hwf params. unfold params.
  rewrite payment_params_shape by exact Hwf. unfold return_args.
  refine (conj _ (conj _ (conj _ (conj _ (conj _ (conj _ _)))))).
  - reflexivity.
  - reflexivity.
  - reflexivity.
  - rewrite get_app, get_shp_params. unfold fixed_params.
    destruct desc as [[|c d]|], test; reflexivity.
  - rewrite get_app, get_shp_params. unfold fixed_params.
    destruct desc as [[|c d]|], test; reflexivity.
  - intros k. rewrite get_app, get_shp_params.
    rewrite startswith_append.
    change 4 with (String.length "Shp_"). rewrite drop_append.
    assert (Hnone : Dict.get ("Shp_" +:+ k)
                      (fixed_params m o i (payment_signature m p o i shp) desc test)
                    = None).
    { destruct (Dict.get _ _) as [v|] eqn:Hget; [|reflexivity].
      exfalso. apply (shp_not_fixed k m o i (payment_signature m p o i shp) desc test).
      unfold Dict.keys. apply list_elem_of_fmap. exists ("Shp_" +:+ k, v).
      split; [reflexivity|]. apply wf_get; [apply fixed_params_nodup | exact Hget]. }
    now rewrite Hnone.
  - intros name Hname Hshp.
    rewrite get_app, get_shp_params, Hshp.
    now rewrite get_fixed_other.
Qed.

Lemma X8_params_content_witness :
  Dict.get "Shp_user"
    (payment_params "robo-demo" "password1" "99.90" "1001" (Some "")
                    (Some [("user", "42")]) false None)
  = Some "42".
Proof.
  refine (proj1 (proj2 (proj2 (proj2 (proj2 (proj2
           (X8_params_content "robo-demo" "password1" "99.90" "1001" (Some "")
              (Some [("user", "42")]) false _)))))) "user").
  apply (bool_decide_unpack _). vm_compute. exact I.
Defined.

(** X9. With nothing set in the environment the configuration is the
    demo one, and the payment URL carries [IsTest=1] exactly when the
    variable [ROBOKASSA_TEST_MODE] is unset or reads ["1"]: any other
    text, ["true"] or ["0"] alike, turns the test mode off. *)
Theorem X9_test_mode_from_environment :
  forall environ m p o i desc shp,
    Config_of_environ [] = default_config
    /\ (Dict.get "IsTest"
          (payment_params m p o i desc shp
             (ROBOKASSA_TEST_MODE (Config_of_environ environ)) None)
        = Some "1"
        <-> Dict.get "ROBOKASSA_TEST_MODE" environ = None
            \/ Dict.get "ROBOKASSA_TEST_MODE" environ = Some "1").
Proof.
  intros environ m p o i desc shp. split; [reflexivity|].
  assert (Hget : forall test,
    Dict.get "IsTest" (payment_params m p o i desc shp test None)
    = if test then Some "1" else None).
  { intros test. unfold payment_params. cbv zeta.
    rewrite (fold_set_other (String.append "Shp_")).
    - destruct desc as [[|c d]|], test; reflexivity.
    - intros kv _. rewrite shp_prefix. discriminate. }
  rewrite Hget. unfold Config_of_environ, environ_get. cbn [ROBOKASSA_TEST_MODE].
  destruct (Dict.get "ROBOKASSA_TEST_MODE" environ) as [v|].
  - destruct (String.eqb_spec v "1") as [->|Hne].
    + split; auto.
    + split; [discriminate | intros [H|[= H]]; [discriminate | contradiction]].
  - split; auto.
Qed.

(** ** The query string of the payment URL *)

Section QueryString.

Lemma quote_plus_chars s : all_chars is_quoted_char (Url.quote_plus s) = true.
Proof.
  induction s as [|c s IH]; [reflexivity|].
  cbn [Url.quote_plus].
  destruct c as [[] [] [] [] [] [] [] []]; cbn; exact IH.
Qed.

Lemma unquote_plus_cons c r :
  Query.unquote_plus (String c r)
  = if Ascii.eqb c "+" then String " " (Query.unquote_plus r)
    else if Ascii.eqb c "%" then
      match r with
      | String h (String l r') =>
          match Query.hex_value h, Query.hex_value l with
          | Some a, Some b =>
              String (ascii_of_nat (16 * a + b)) (Query.unquote_plus r')
          | _, _ => String c (Query.unquote_plus r)
          end
      | _ => String c (Query.unquote_plus r)
      end
    else String c (Query.unquote_plus r).
Proof. reflexivity. Qed.

Lemma unquote_quote s : Query.unquote_plus (Url.quote_plus s) = s.
Proof.
  induction s as [|c s IH]; [reflexivity|].
  cbn [Url.quote_plus].
  destruct c as [[] [] [] [] [] [] [] []];
    lazy -[Query.unquote_plus Url.quote_plus];
    rewrite unquote_plus_cons;
    lazy -[Query.unquote_plus Url.quote_plus];
    rewrite IH; reflexivity.
Qed.

Lemma quoted_not_sep sep :
  is_quoted_char sep = false ->
  forall s, all_chars (fun c => negb (Ascii.eqb c sep)) (Url.quote_plus s) = true.
Proof.
  intros Hsep s. apply (all_chars_impl is_quoted_char); [|apply quote_plus_chars].
  intros c Hc. destruct (Ascii.eqb_spec c sep) as [->|_]; [congruence | reflexivity].
Qed.

Lemma split_on_nosep sep s :
  all_chars (fun c => negb (Ascii.eqb c sep)) s = true -> Query.split_on sep s = [s].
Proof.
  induction s as [|c s IH]; simpl; [reflexivity|].
  rewrite andb_true_iff, negb_true_iff. intros [-> Hs]. now rewrite IH.
Qed.

Lemma split_on_sep sep s t :
  all_chars (fun c => negb (Ascii.eqb c sep)) s = true ->
  Query.split_on sep (s +:+ String sep t) = s :: Query.split_on sep t.
Proof.
  induction s as [|c s IH].
  - intros _. change ("" +:+ String sep t) with (String sep t).
    simpl. now rewrite Ascii.eqb_refl.
  - simpl. rewrite andb_true_iff, negb_true_iff. intros [Hc Hs].
    rewrite ?append_cons. simpl. now rewrite Hc, IH.
Qed.

Lemma split_join sep l :
  l <> [] ->
  Forall (fun s => all_chars (fun c => negb (Ascii.eqb c sep)) s = true) l ->
  Query.split_on sep (PyStr.join (String sep "") l) = l.
Proof.
  intros Hne Hall. induction Hall as [|s l Hs Hl IH]; [contradiction|].
  destruct l as [|s' l].
  - now apply split_on_nosep.
  - rewrite join_cons.
    change (s +:+ String sep "" +:+ PyStr.join (String sep "") (s' :: l))
      with (s +:+ String sep (PyStr.join (String sep "") (s' :: l))).
    rewrite split_on_sep by exact Hs. f_equal. now apply IH.
Qed.

Lemma cut_sep sep a b :
  all_chars (fun c => negb (Ascii.eqb c sep)) a = true ->
  Query.cut sep (a +:+ String sep b) = (a, Some b).
Proof.
  induction a as [|c a IH].
  - intros _. change ("" +:+ String sep b) with (String sep b).
    simpl. now rewrite Ascii.eqb_refl.
  - simpl. rewrite andb_true_iff, negb_true_iff. intros [Hc Ha].
    rewrite ?append_cons. simpl. now rewrite Hc, IH.
Qed.

Lemma truthy_app_cons a c b : PyStr.truthy (a +:+ String c b) = true.
Proof. now destruct a. Qed.

(** A query string built by [urlencode] reads back as the parameters
    it was built from. *)
Lemma parse_urlencode params : Query.parse_qsl (Url.urlencode params) = params.
Proof.
  unfold Query.parse_qsl, Url.urlencode.
  destruct params as [|kv params]; [reflexivity|].
  change "&" with (String "&"%char "") at 1.
  rewrite split_join.
  - generalize (kv :: params). intros l.
    induction l as [|[k v] l IH]; [reflexivity|].
    cbn [map flat_map fst snd].
    change (Url.quote_plus k +:+ "=" +:+ Url.quote_plus v)
      with (Url.quote_plus k +:+ String "="%char (Url.quote_plus v)).
    rewrite truthy_app_cons, cut_sep by (now apply quoted_not_sep).
    rewrite !unquote_quote, IH. reflexivity.
  - discriminate.
  - apply Forall_forall. intros s Hs. apply list_elem_of_In, in_map_iff in Hs.
    destruct Hs as ([k v] & <- & _). cbn [fst snd].
    rewrite !all_chars_app, !quoted_not_sep by reflexivity. reflexivity.
Qed.

Lemma urlencode_chars params : all_chars is_query_char (Url.urlencode params) = true.
Proof.
  assert (Hq : forall s, all_chars is_query_char (Url.quote_plus s) = true).
  { intros s. apply (all_chars_impl is_quoted_char); [|apply quote_plus_chars].
    intros c Hc. unfold is_query_char. now rewrite Hc. }
  unfold Url.urlencode. induction params as [|[k v] params IH]; [reflexivity|].
  cbn [map fst snd]. destruct params as [|kv params].
  - cbn [map PyStr.join]. rewrite !all_chars_app, !Hq. reflexivity.
  - cbn [map] in *. rewrite join_cons, !all_chars_app, !Hq, IH. reflexivity.
Qed.

End QueryString.

(** X10. The URL [build_payment_url] returns is the gateway address, a
    question mark and a query string made only of letters, digits,
    [_.-~], [+], [%], [=] and [&]: whatever the parameters hold, no
    space, quote, [#] or non-ASCII byte reaches the URL unescaped. *)
Theorem X10_url_alphabet :
  forall m p o i desc shp test extra,
    exists query,
      build_payment_url m p o i desc shp test extra
      = ROBOKASSA_GATEWAY +:+ "?" +:+ query
      /\ all_chars is_query_char query = true.
Proof.
  intros. eexists. split; [reflexivity | apply urlencode_chars].
Qed.

(** X11. The query string of the URL determines the parameters: cut at
    the question mark, split at [&] and [=] and unquoted as
    [parse_qsl] does, the URL reads back as the gateway address and
    exactly the parameter dictionary that was encoded, names, values
    and order. *)
Theorem X11_url_reads_back :
  forall m p o i desc shp test extra,
    exists query,
      Query.cut "?" (build_payment_url m p o i desc shp test extra)
      = (ROBOKASSA_GATEWAY, Some query)
      /\ Query.parse_qsl query = payment_params m p o i desc shp test extra.
Proof.
  intros. eexists. split; [reflexivity | apply parse_urlencode].
Qed.

(** ** Reading the extension pairs of a request *)

Section CollectShp.

Lemma mem_spec k seen : MultiDict.mem k seen = true <-> k ∈ seen.
Proof.
  unfold MultiDict.mem. induction seen as [|x seen IH]; simpl.
  - split; [discriminate | intros H; inversion H].
  - rewrite orb_true_iff, IH, elem_of_cons, String.eqb_eq. reflexivity.
Qed.

Lemma items_from_keys md : forall seen,
  NoDup (map fst (MultiDict.items_from seen md))
  /\ (forall k, k ∈ map fst (MultiDict.items_from seen md) -> k ∉ seen).
Proof.
  induction md as [|[k v] md IH]; intros seen; simpl.
  - split; [constructor | intros k H; inversion H].
  - destruct (MultiDict.mem k seen) eqn:Hmem; [apply IH|].
    destruct (IH (k :: seen)) as [Hnd Hout]. simpl. split.
    + constructor; [|exact Hnd]. intros Hin. apply Hout in Hin.
      apply Hin. now left.
    + intros k' Hk'. apply elem_of_cons in Hk' as [->|Hk'].
      * intros Hin. apply mem_spec in Hin. congruence.
      * apply Hout in Hk'. intros Hin. apply Hk'. now right.
Qed.

Lemma get_items_from name md : forall seen,
  Dict.get name (MultiDict.items_from seen md)
  = if MultiDict.mem name seen then None else Dict.get name md.
Proof.
  induction md as [|[k v] md IH]; intros seen; simpl.
  - now destruct (MultiDict.mem name seen).
  - destruct (MultiDict.mem k seen) eqn:Hk.
    + rewrite IH. destruct (String.eqb_spec name k) as [->|_]; [|reflexivity].
      now rewrite Hk.
    + simpl. rewrite IH. unfold MultiDict.mem at 1. simpl.
      destruct (String.eqb_spec name k) as [->|_].
      * fold (MultiDict.mem k seen). now rewrite Hk.
      * reflexivity.
Qed.

(** [items()] lists every name once and gives it the first value
    submitted under it. *)
Lemma items_spec md :
  NoDup (map fst (MultiDict.items md))
  /\ forall name, Dict.get name (MultiDict.items md) = MultiDict.get name md.
Proof.
  split; [apply items_from_keys|].
  intros name. unfold MultiDict.items. now rewrite get_items_from.
Qed.

Lemma collect_fold l : forall d k,
  NoDup (map fst l) ->
  Dict.get k
    (fold_left
       (fun d kv =>
          if PyStr.startswith "Shp_" (fst kv)
          then Dict.set (PyStr.drop 4 (fst kv)) (snd kv) d else d) l d)
  = match Dict.get ("Shp_" +:+ k) l with
    | Some v => Some v
    | None => Dict.get k d
    end.
Proof.
  induction l as [|[n v] l IH]; intros d k Hnd; [reflexivity|].
  simpl in Hnd. apply NoDup_cons in Hnd as [Hn Hnd].
  cbn [fold_left fst snd Dict.get]. rewrite IH by exact Hnd.
  rewrite (String.eqb_sym ("Shp_" +:+ k)), eqb_shp_prefix.
  destruct (PyStr.startswith "Shp_" n) eqn:Hs; cbn [andb]; [|reflexivity].
  rewrite get_set, (String.eqb_sym k).
  destruct (String.eqb_spec (PyStr.drop 4 n) k) as [E|_]; [|reflexivity].
  destruct (Dict.get ("Shp_" +:+ k) l) as [v'|] eqn:Hget; [|reflexivity].
  exfalso. apply Hn. apply startswith_split in Hs.
  change (String.length "Shp_") with 4 in Hs. rewrite E in Hs. subst n.
  apply list_elem_of_fmap. exists ("Shp_" +:+ k, v'). split; [reflexivity|].
  apply (wf_get l Hnd). exact Hget.
Qed.

Lemma collect_fold_wf l : forall d,
  Dict.wf d ->
  Dict.wf
    (fold_left
       (fun d kv =>
          if PyStr.startswith "Shp_" (fst kv)
          then Dict.set (PyStr.drop 4 (fst kv)) (snd kv) d else d) l d).
Proof.
  induction l as [|x l IH]; intros d Hwf; [exact Hwf|].
  cbn [fold_left]. apply IH.
  destruct (PyStr.startswith "Shp_" (fst x)); [now apply set_wf | exact Hwf].
Qed.

Lemma get_collect_shp params k :
  Dict.get k (collect_shp params) = MultiDict.get ("Shp_" +:+ k) params.
Proof.
  unfold collect_shp. destruct (items_spec params) as [Hnd Hget].
  rewrite collect_fold by exact Hnd. rewrite Hget.
  now destruct (MultiDict.get ("Shp_" +:+ k) params).
Qed.

End CollectShp.

(** X12. The extension map a route reads from its request is a
    dictionary whose entry [k] is the first value submitted under the
    name [Shp_k]: a repeated parameter counts once, with its first
    value, and a name that does not start with [Shp_] in this exact
    spelling contributes nothing. *)
Theorem X12_extension_map_of_a_request :
  forall params,
    Dict.wf (collect_shp params)
    /\ (forall k, Dict.get k (collect_shp params)
                  = MultiDict.get ("Shp_" +:+ k) params).
Proof.
  intros params. split; [|intros k; apply get_collect_shp].
  unfold collect_shp. apply collect_fold_wf. constructor.
Qed.

(** ** What each route does to the store *)

(** X13. [_update_order_status] touches one record only.  An order the
    store holds keeps its id, amount, description and extension map,
    takes the new status, and takes the gateway data when some are
    passed; for an id the store does not hold, a bare record with the
    status alone is created and the gateway data are dropped. *)
Theorem X13_update_order_status_frame :
  forall order_id st data (ORDERS : store),
    let ORDERS' := _update_order_status order_id st data ORDERS in
    (forall other, other <> order_id -> ORDERS' !! other = ORDERS !! other)
    /\ dom ORDERS' = {[order_id]} ∪ dom ORDERS
    /\ (forall o,
          ORDERS !! order_id = Some o ->
          ORDERS' !! order_id
          = Some {| Order.id := Order.id o;
                    Order.amount := Order.amount o;
                    Order.description := Order.description o;
                    Order.status := st;
                    Order.shp := Order.shp o;
                    Order.robokassa :=
                      match data with
                      | Some d => Some d
                      | None => Order.robokassa o
                      end |})
    /\ (ORDERS !! order_id = None ->
          ORDERS' !! order_id
          = Some {| Order.id := order_id; Order.amount := None;
                    Order.description := None; Order.status := st;
                    Order.shp := None; Order.robokassa := None |}).
Proof.
  intros order_id st data ORDERS ORDERS'. unfold ORDERS'.
  refine (conj _ (conj _ (conj _ _))).
  - intros other Hne. now apply update_status_other.
  - unfold _update_order_status.
    destruct (ORDERS !! order_id); now rewrite dom_insert_L.
  - intros o Ho. unfold _update_order_status. rewrite Ho, lookup_insert_eq.
    now destruct data.
  - intros Ho. unfold _update_order_status. now rewrite Ho, lookup_insert_eq.
Qed.

Lemma X13_update_order_status_frame_witness :
  Order.amount <$>
    (_update_order_status "1001" "pending" None
       (snd (create_order [("order_id", "1001"); ("amount", "5")] ∅)) !! "1001")
  = Some (Some (Decimal.Make false "5" (Decimal.Exp 0))).
Proof.
  rewrite (proj1 (proj2 (proj2 (X13_update_order_status_frame "1001" "pending" None
             (snd (create_order [("order_id", "1001"); ("amount", "5")] ∅)))))
             {| Order.id := "1001";
                Order.amount := Some (Decimal.Make false "5" (Decimal.Exp 0));
                Order.description := Some "Заказ";
                Order.status := "created";
                Order.shp := Some [("user", "demo")];
                Order.robokassa := None |}).
  - reflexivity.
  - vm_compute. reflexivity.
Defined.

(** X14. [create_payment] answers 400 ["order_id required"] without an
    order id, 404 ["Order not found"] for an id the store does not
    hold, 500 for a record without an amount or with a NaN amount, 400
    for an amount that is not positive or a description that is empty,
    and 302 otherwise.  Only the 302 changes the store, and then only
    the status of that one order, which becomes ['pending']. *)
Theorem X14_create_payment_outcomes :
  forall cfg form (ORDERS : store),
    let r := create_payment cfg form ORDERS in
    (nonempty (MultiDict.get "order_id" form) = None ->
       r = (Response (Text "order_id required") 400, ORDERS))
    /\ (forall order_id,
          nonempty (MultiDict.get "order_id" form) = Some order_id ->
          ORDERS !! order_id = None ->
          r = (Response (Text "Order not found") 404, ORDERS))
    /\ (forall order_id order,
          nonempty (MultiDict.get "order_id" form) = Some order_id ->
          ORDERS !! order_id = Some order ->
          match Order.amount order with
          | None => r = (internal_error, ORDERS)
          | Some a =>
              match Decimal.le_zero a with
              | None => r = (internal_error, ORDERS)
              | Some true => r = (Response (Text "Amount must be positive") 400, ORDERS)
              | Some false =>
                  match nonempty (Order.description order) with
                  | None => r = (Response (Text "Description required") 400, ORDERS)
                  | Some d =>
                      r = (Response
                             (Redirect
                                (build_payment_url
                                   (ROBOKASSA_MERCHANT_LOGIN cfg)
                                   (ROBOKASSA_PASSWORD1 cfg)
                                   (Decimal.to_string a) order_id (Some d)
                                   (Some (default [] (Order.shp order)))
                                   (ROBOKASSA_TEST_MODE cfg) None)) 302,
                           <[order_id := Order.with_status order "pending"]> ORDERS)
                  end
              end
          end)
    /\ (code (fst r) <> 302 -> snd r = ORDERS).
Proof.
  intros cfg form ORDERS r. unfold r.
  refine (conj _ (conj _ (conj _ _))).
  - intros Hid. unfold create_payment. now rewrite Hid.
  - intros order_id Hid Hord. unfold create_payment, _get_order_data.
    now rewrite Hid, Hord.
  - intros order_id order Hid Hord.
    unfold create_payment, _get_order_data, _validate_order_parameters.
    rewrite Hid, Hord.
    destruct (Order.amount order) as [a|]; [|reflexivity].
    destruct (Decimal.le_zero a) as [[|]|]; try reflexivity.
    destruct (Order.description order) as [[|c d]|] eqn:Hd; try reflexivity.
    cbn [nonempty PyStr.truthy]. cbv zeta.
    unfold _update_order_status. rewrite Hord.
    now destruct (Order.shp order).
  - intros Hcode.
    destruct (create_payment_cases cfg form ORDERS) as [[Hs _]|Hok]; [exact Hs|].
    destruct Hok as (? & ? & ? & _ & _ & _ & _ & H302 & _). contradiction.
Qed.

Lemma X14_create_payment_outcomes_witness :
  create_payment default_config [("order_id", "7")] (run default_config demo_trace ∅)
  = (Response (Text "Order not found") 404, run default_config demo_trace ∅).
Proof.
  apply (proj1 (proj2 (X14_create_payment_outcomes default_config [("order_id", "7")]
                         (run default_config demo_trace ∅))) "7").
  - reflexivity.
  - vm_compute. reflexivity.
Defined.

(** X15. An order that exists only because a correctly signed callback
    named an id the store did not hold cannot be sent to payment:
    [create_payment] for that id fails with status 500 and changes
    nothing, the bare record having no amount. *)
Theorem X15_bare_record_cannot_be_paid :
  forall cfg callback form (ORDERS : store) inv_id,
    nonempty (MultiDict.get "InvId" callback) = Some inv_id ->
    verify_signature_from_result
      (MultiDict.get_default "OutSum" "" callback) inv_id
      (MultiDict.get_default "SignatureValue" "" callback)
      (ROBOKASSA_PASSWORD2 cfg) (Some (collect_shp callback)) = true ->
    ORDERS !! inv_id = None ->
    nonempty (MultiDict.get "order_id" form) = Some inv_id ->
    let ORDERS' := snd (payment_result cfg callback ORDERS) in
    create_payment cfg form ORDERS' = (internal_error, ORDERS').
Proof.
  intros cfg callback form ORDERS inv_id Hid Hok Hnew Hform ORDERS'.
  pose proof (payment_result_cases cfg callback ORDERS) as Hc. cbv zeta in Hc.
  rewrite Hid, Hok in Hc. unfold ORDERS'. rewrite Hc. cbn [snd].
  unfold create_payment, _get_order_data. rewrite Hform.
  unfold _update_order_status at 1. rewrite Hnew, lookup_insert_eq. reflexivity.
Qed.

Lemma X15_bare_record_cannot_be_paid_witness :
  code (fst (create_payment default_config [("order_id", "1001")]
               (snd (payment_result default_config callback_1001 ∅))))
  = 500.
Proof.
  rewrite (X15_bare_record_cannot_be_paid default_config callback_1001
             [("order_id", "1001")] ∅ "1001");
    [reflexivity | reflexivity | vm_compute; reflexivity | reflexivity | reflexivity].
Defined.

(** X16. [create_order] answers 302 or 400; on 400 the store is
    unchanged, and on 302 only the registered id is written: every
    other order is as before, and the store grows by one order unless
    the id was already held, in which case the record under it is
    replaced. *)
Theorem X16_create_order_frame :
  forall form (ORDERS : store),
    let r := create_order form ORDERS in
    let order_id := registered_id form ORDERS in
    (code (fst r) = 302 \/ code (fst r) = 400)
    /\ (code (fst r) = 400 -> snd r = ORDERS)
    /\ (forall other, other <> order_id -> snd r !! other = ORDERS !! other)
    /\ (code (fst r) = 302 ->
          size (snd r)
          = match ORDERS !! order_id with
            | Some _ => size ORDERS
            | None => S (size ORDERS)
            end).
Proof.
  intros form ORDERS r order_id. unfold r, order_id, create_order, registered_id.
  destruct (Decimal.of_string _) as [a|]; cbv zeta; cbn [fst snd code].
  - refine (conj _ (conj _ (conj _ _))).
    + now left.
    + discriminate.
    + intros other Hne. now rewrite lookup_insert_ne.
    + intros _.
      match goal with |- context [<[?k := ?v]> ORDERS] =>
        destruct (ORDERS !! k) as [o|] eqn:Ho;
          [rewrite <- (insert_delete_id ORDERS k o Ho) at 2;
           rewrite <- insert_delete_eq;
           rewrite !map_size_insert_None by apply lookup_delete_eq; reflexivity
          |now rewrite map_size_insert_None]
      end.
  - refine (conj _ (conj _ (conj _ _))); auto. discriminate.
Qed.

Lemma X16_create_order_frame_witness :
  size (snd (create_order [("order_id", "1001"); ("amount", "1")]
               (run default_config demo_trace ∅)))
  = size (run default_config demo_trace ∅).
Proof.
  rewrite (proj2 (proj2 (proj2 (X16_create_order_frame
             [("order_id", "1001"); ("amount", "1")]
             (run default_config demo_trace ∅))))); reflexivity.
Defined.

(** X18. The pages served by [GET], the index, the success page and the
    failure page, never change the store, for any sequence of such
    requests and whatever parameters they carry. *)
Theorem X18_get_routes_are_safe :
  forall cfg reqs (ORDERS : store),
    forallb is_get reqs = true -> run cfg reqs ORDERS = ORDERS.
Proof.
  intros cfg reqs. induction reqs as [|req reqs IH]; intros ORDERS Hget;
    [reflexivity|].
  simpl in Hget. apply andb_true_iff in Hget as [Hreq Hget].
  unfold run in *. simpl. rewrite <- (IH ORDERS Hget) at 2. f_equal.
  destruct req; try discriminate Hreq; simpl; auto using payment_success_store.
Qed.

Lemma X18_get_routes_are_safe_witness :
  run default_config
    [GetIndex; GetPaymentSuccess callback_1001; GetPaymentFail [("InvId", "1001")]]
    (run default_config demo_trace ∅)
  = run default_config demo_trace ∅.
Proof.
  apply (X18_get_routes_are_safe default_config). reflexivity.
Defined.

(** ** Default order ids *)

Section DefaultIds.




End DefaultIds.



(** ** The callback of the gateway and the life of an order *)

Section Lifecycle.

(** Parameters that repeat no name and whose extension pairs come last
    give their extension pairs back. *)
Lemma collect_shp_head (h : MultiDict.t) ext :
  NoDup (map fst h) ->
  Forall (fun kv => PyStr.startswith "Shp_" (fst kv) = false) h ->
  Dict.wf ext ->
  collect_shp (h ++ map shp_param ext) = ext.
Proof.
  intros Hnd Hhead Hwf. unfold collect_shp.
  rewrite items_nodup.
  - rewrite fold_left_app.
    match goal with
    | |- fold_left ?g _ (fold_left ?g h []) = _ =>
        assert (Hh : forall d, fold_left g h d = d)
    end.
    { clear Hnd. induction Hhead as [|kv h Hkv _ IH]; intros d; [reflexivity|].
      cbn [fold_left]. now rewrite Hkv. }
    rewrite Hh, collect_prefixed.
    rewrite (fold_set_fresh id) by (exact Hwf || (intros kv _ Hin; inversion Hin)).
    apply map_pair_id.
  - rewrite map_app. apply NoDup_app. split; [exact Hnd|]. split.
    + intros k Hk Hk'. rewrite keys_shp_param in Hk'.
      apply list_elem_of_fmap in Hk' as [k' [-> _]].
      apply list_elem_of_fmap in Hk as [kv [E Hkv]].
      rewrite Forall_forall in Hhead. specialize (Hhead kv Hkv).
      rewrite <- E, startswith_append in Hhead. discriminate.
    + rewrite keys_shp_param.
      apply (NoDup_fmap_2 _ (Inj0 := shp_prefix_inj)). exact Hwf.
Qed.

Lemma collect_shp_gateway_callback p2 o i ext :
  Dict.wf ext -> collect_shp (gateway_callback p2 o i ext) = ext.
Proof.
  intros Hwf. unfold gateway_callback. apply collect_shp_head; [| |exact Hwf].
  - apply (bool_decide_unpack _). vm_compute. exact I.
  - repeat constructor.
Qed.

(** What [payment_result] does with the gateway's form. *)
Lemma payment_result_gateway_callback cfg out_sum inv_id ext (ORDERS : store) :
  Dict.wf ext -> inv_id <> "" ->
  payment_result cfg
    (gateway_callback (ROBOKASSA_PASSWORD2 cfg) out_sum inv_id ext) ORDERS
  = (Response (Text ("OK" +:+ inv_id)) 200,
     _update_order_status inv_id "paid"
       (Some {| Order.OutSum := out_sum; Order.shp_echo := ext |}) ORDERS).
Proof.
  intros Hwf Hid.
  pose proof (payment_result_cases cfg
    (gateway_callback (ROBOKASSA_PASSWORD2 cfg) out_sum inv_id ext) ORDERS) as Hc.
  cbv zeta in Hc. rewrite collect_shp_gateway_callback in Hc by exact Hwf.
  change (MultiDict.get "InvId"
            (gateway_callback (ROBOKASSA_PASSWORD2 cfg) out_sum inv_id ext))
    with (Some inv_id) in Hc.
  change (MultiDict.get_default "OutSum" ""
            (gateway_callback (ROBOKASSA_PASSWORD2 cfg) out_sum inv_id ext))
    with out_sum in Hc.
  change (MultiDict.get_default "SignatureValue" ""
            (gateway_callback (ROBOKASSA_PASSWORD2 cfg) out_sum inv_id ext))
    with (sign [out_sum; inv_id] (ROBOKASSA_PASSWORD2 cfg) ext) in Hc.
  assert (Hne : nonempty (Some inv_id) = Some inv_id)
    by (destruct inv_id; [contradiction | reflexivity]).
  rewrite Hne in Hc.
  rewrite verify_sign, or_empty_some, sign_upper_fixed, String.eqb_refl in Hc.
  exact Hc.
Qed.


Lemma create_payment_issues cfg form (ORDERS : store) order_id order a d :
  nonempty (MultiDict.get "order_id" form) = Some order_id ->
  ORDERS !! order_id = Some order ->
  Order.amount order = Some a -> positive a ->
  Order.description order = Some d -> d <> "" ->
  create_payment cfg form ORDERS
  = (Response
       (Redirect
          (build_payment_url (ROBOKASSA_MERCHANT_LOGIN cfg) (ROBOKASSA_PASSWORD1 cfg)
             (Decimal.to_string a) order_id (Some d)
             (Some (default [] (Order.shp order)))
             (ROBOKASSA_TEST_MODE cfg) None)) 302,
     <[order_id := Order.with_status order "pending"]> ORDERS).
Proof.
  intros Hid Hord Ha Hpos Hd Hne.
  unfold create_payment, _get_order_data, _validate_order_parameters.
  rewrite Hid, Hord, Ha, Hpos, Hd.
  destruct d as [|c d]; [contradiction|]. cbn [PyStr.truthy]. cbv zeta.
  unfold _update_order_status. rewrite Hord.
  now destruct (Order.shp order).
Qed.

End Lifecycle.





(** X21. What [create_payment] issues comes back valid: whenever it
    redirects to the gateway for an order whose extension map is a
    dictionary, the query of the redirect URL, read back as request
    parameters and presented to [payment_success], passes the
    signature check, and the page shows the stored order, now
    ['pending']. *)
Theorem X21_issued_url_returns_valid :
  forall cfg form (ORDERS : store) order_id order a d,
    nonempty (MultiDict.get "order_id" form) = Some order_id ->
    ORDERS !! order_id = Some order ->
    Order.amount order = Some a -> positive a ->
    Order.description order = Some d -> d <> "" ->
    Dict.wf (default [] (Order.shp order)) ->
    let r := create_payment cfg form ORDERS in
    exists query,
      fst r = Response (Redirect (ROBOKASSA_GATEWAY +:+ "?" +:+ query)) 302
      /\ payment_success cfg (Query.parse_qsl query) (snd r)
         = (Response
              (SuccessPage order_id (Stored (Order.with_status order "pending")))
              200, snd r).
Proof.
  intros cfg form ORDERS order_id order a d Hid Hord Ha Hpos Hd Hne Hwf r.
  unfold r. rewrite (create_payment_issues cfg form ORDERS order_id order a d)
    by assumption.
  eexists. split; [reflexivity|]. cbn [snd].
  rewrite parse_urlencode.
  rewrite payment_params_shape by (now rewrite or_empty_some).
  rewrite or_empty_some.
  rewrite payment_success_return_args by exact Hwf.
  rewrite !payment_signature_sign, ?or_empty_some, sign_upper_fixed, String.eqb_refl.
  unfold _get_order_data. now rewrite lookup_insert_eq.
Qed.

Lemma X21_issued_url_returns_valid_witness :
  exists query,
    fst (create_payment default_config [("order_id", "1001")]
           (run default_config demo_trace ∅))
    = Response (Redirect (ROBOKASSA_GATEWAY +:+ "?" +:+ query)) 302.
Proof.
  destruct (X21_issued_url_returns_valid default_config [("order_id", "1001")]
              (run default_config demo_trace ∅) "1001"
              {| Order.id := "1001";
                 Order.amount := Some (Decimal.Make false "9990" (Decimal.Exp (-2)));
                 Order.description := Some "Order 1001";
                 Order.status := "paid";
                 Order.shp := Some [("user", "demo")];
                 Order.robokassa :=
                   Some {| Order.OutSum := "99.90";
                           Order.shp_echo := [("user", "demo")] |} |}
              (Decimal.Make false "9990" (Decimal.Exp (-2))) "Order 1001")
    as (query & Hurl & _).
  - reflexivity.
  - vm_compute. reflexivity.
  - reflexivity.
  - reflexivity.
  - reflexivity.
  - discriminate.
  - apply (bool_decide_unpack _). vm_compute. exact I.
  - exists query. exact Hurl.
Defined.

(** ** Trimming, validation and what the pages show *)

Section Trimming.








End Trimming.



(** X23. [_validate_order_parameters] returns normally exactly for a
    positive amount with a non-empty description.  A NaN amount raises
    [InvalidOperation] and an amount that is not positive raises
    ["Amount must be positive"], in both cases before the description
    is looked at. *)
Theorem X23_validation_outcomes :
  forall order_id a desc,
    (_validate_order_parameters order_id a desc = inr tt
     <-> positive a /\ exists d, desc = Some d /\ d <> "")
    /\ (Decimal.le_zero a = None ->
          _validate_order_parameters order_id a desc = inl InvalidOperation)
    /\ (Decimal.le_zero a = Some true ->
          _validate_order_parameters order_id a desc
          = inl (ValueError "Amount must be positive")).
Proof.
  intros order_id a desc. refine (conj _ (conj _ _)).
  - apply validate_ok.
  - intros H. unfold _validate_order_parameters. now rewrite H.
  - intros H. unfold _validate_order_parameters. now rewrite H.
Qed.

Lemma X23_validation_outcomes_witness :
  _validate_order_parameters "1001" (Decimal.Make true "5" (Decimal.Exp 0)) None
  = inl (ValueError "Amount must be positive").
Proof.
  apply (proj2 (proj2 (X23_validation_outcomes "1001"
                         (Decimal.Make true "5" (Decimal.Exp 0)) None))).
  reflexivity.
Defined.

(** X24. What the success page shows for a return that carries the
    Builder's signature: the stored record as it stands when the store
    holds the order, and otherwise, still with status 200, a stand-in
    made of the order id and amount of the request itself. *)
Theorem X24_success_page_content :
  forall cfg out_sum inv_id desc test ext (ORDERS : store),
    Dict.wf ext ->
    let args :=
      return_args (ROBOKASSA_MERCHANT_LOGIN cfg) out_sum inv_id
        (payment_signature (ROBOKASSA_MERCHANT_LOGIN cfg) (ROBOKASSA_PASSWORD1 cfg)
           out_sum inv_id (Some ext))
        desc test ext in
    fst (payment_success cfg args ORDERS)
    = Response
        (SuccessPage inv_id
           (match ORDERS !! inv_id with
            | Some order => Stored order
            | None => Unknown inv_id out_sum
            end)) 200.
Proof.
  intros cfg out_sum inv_id desc test ext ORDERS Hwf args. unfold args.
  rewrite payment_success_return_args by exact Hwf.
  rewrite !payment_signature_sign, sign_upper_fixed, String.eqb_refl. cbn [fst].
  unfold _get_order_data. now destruct (ORDERS !! inv_id).
Qed.

Lemma X24_success_page_content_witness :
  fst (payment_success default_config
         (return_args "robo-demo" "5.00" "42"
            (payment_signature "robo-demo" "password1" "5.00" "42" (Some []))
            None false []) ∅)
  = Response (SuccessPage "42" (Unknown "42" "5.00")) 200.
Proof.
  etransitivity;
    [apply (X24_success_page_content default_config "5.00" "42" None false [] ∅);
     apply NoDup_nil_2
    |reflexivity].
Defined.

(** X25. The callback route trusts the signature alone: a correctly
    signed callback files the order it names ['paid'] whatever status
    the order had and whatever amount the callback states; the stored
    amount, description and extension map are neither compared with
    the callback nor changed, and the stated amount is recorded beside
    them. *)
Theorem X25_callback_ignores_stored_amount :
  forall cfg out_sum inv_id ext (ORDERS : store) order,
    Dict.wf ext -> inv_id <> "" ->
    ORDERS !! inv_id = Some order ->
    snd (payment_result cfg
           (gateway_callback (ROBOKASSA_PASSWORD2 cfg) out_sum inv_id ext) ORDERS)
    !! inv_id
    = Some {| Order.id := Order.id order;
              Order.amount := Order.amount order;
              Order.description := Order.description order;
              Order.status := "paid";
              Order.shp := Order.shp order;
              Order.robokassa :=
                Some {| Order.OutSum := out_sum; Order.shp_echo := ext |} |}.
Proof.
  intros cfg out_sum inv_id ext ORDERS order Hwf Hid Hord.
  rewrite payment_result_gateway_callback by assumption. cbn [snd].
  unfold _update_order_status. now rewrite Hord, lookup_insert_eq.
Qed.

Lemma X25_callback_ignores_stored_amount_witness :
  Order.status <$>
    (snd (payment_result default_config
            (gateway_callback "password2" "0.01" "1000" [])
            (snd (create_order [("amount", "500")] ∅)))
     !! "1000")
  = Some "paid".
Proof.
  rewrite (X25_callback_ignores_stored_amount default_config "0.01" "1000" []
             (snd (create_order [("amount", "500")] ∅))
             {| Order.id := "1000";
                Order.amount := Some (Decimal.Make false "500" (Decimal.Exp 0));
                Order.description := Some "Заказ";
                Order.status := "created";
                Order.shp := Some [("user", "demo")];
                Order.robokassa := None |}).
  - reflexivity.
  - apply NoDup_nil_2.
  - discriminate.
  - vm_compute. reflexivity.
Defined.
